(** * sqlalchemy_helpers: filter construction and pagination

    A shallow embedding of [sqlalchemy_helpers/filter.py] and
    [sqlalchemy_helpers/pagination.py].

    - Python objects that the helpers inspect (argument values, the lookup
      string, dictionaries) are modelled concretely in [Module Py].
    - SQLAlchemy expressions and queries are modelled as syntax trees in
      [Module Sql]: building a criterion or a query only composes syntax,
      executing one ([count], [all]) is an effect recorded in a trace.
    - What SQLAlchemy, marshmallow and the interpreter decide (whether an
      operator accepts its operand, what the database answers, what
      [int()] makes of a string) is a parameter of the model; an
      exception raised inside one of them is kept apart from the
      exceptions raised by the helpers' own statements.
    - The helpers themselves keep the names they have in the source. *)

From stdpp Require Import gmap strings list pretty.

Open Scope Z_scope.

(* ===================================================================== *)
(** ** Python values, exceptions and dictionaries                         *)
(* ===================================================================== *)

Module Py.

(** The values that reach the helpers through the argument dictionaries. *)
#[warnings="-register-all"]
Inductive pyval : Type :=
| PNone
| PBool (b : bool)
| PInt (z : Z)
| PStr (s : string)
| PList (items : list pyval).

(** Truth value testing ([if not x], [x or y]). *)
Definition truthy (v : pyval) : bool :=
  match v with
  | PNone => false
  | PBool b => b
  | PInt z => negb (z =? 0)
  | PStr s => negb (String.eqb s "")
  | PList items => negb (Nat.eqb (length items) 0)
  end.

(** [x or y] *)
Definition py_or (x y : pyval) : pyval := if truthy x then x else y.

(** Exceptions. The first five are raised by the helpers' own
    statements ([raise], [d[k]], [d.pop(k)], arithmetic and comparison);
    [CollaboratorError what] is an exception of class [what] raised inside
    a method of SQLAlchemy or marshmallow that a helper calls
    ([ArgumentError] from an operator, [ValueError] from the [int()] in
    [limit], a database error from [count]). *)
Inductive exn : Type :=
| ValueError (msg : string)
| KeyError (key : string)
| TypeError
| ZeroDivisionError
| OverflowError
| CollaboratorError (what : string).

Inductive result (A : Type) : Type :=
| Ok (a : A)
| Raise (e : exn).
Arguments Ok {A} a.
Arguments Raise {A} e.

Definition raises {A} (r : result A) : bool :=
  match r with Ok _ => false | Raise _ => true end.

(** Sequencing of computations that may raise. *)
Definition rbind {A B} (r : result A) (k : A → result B) : result B :=
  match r with
  | Ok a => k a
  | Raise e => Raise e
  end.

Notation "'try' x ':=' r 'in' k" := (rbind r (λ x, k))
  (at level 10, x name, r at level 100, k at level 200,
   format "'[v' 'try'  x  ':='  r  'in' '/' k ']'").

(** What a call into a collaborator gives: a value, or an exception of
    the named class. *)
Inductive answer (A : Type) : Type :=
| Returns (a : A)
| Fails (what : string).
Arguments Returns {A} a.
Arguments Fails {A} what.

Definition of_answer {A} (x : answer A) : result A :=
  match x with
  | Returns a => Ok a
  | Fails what => Raise (CollaboratorError what)
  end.

Section Format.
(** [repr] of a [str] (quoting and escaping) is the interpreter's; it is
    only reached when a list that contains strings is formatted. *)
Variable repr_str : string → string.

Definition join_comma (parts : list string) : string :=
  match parts with
  | [] => ""
  | p :: ps => fold_left (λ acc q, acc +:+ ", " +:+ q) ps p
  end.

Fixpoint py_repr (v : pyval) : string :=
  match v with
  | PNone => "None"
  | PBool true => "True"
  | PBool false => "False"
  | PInt z => pretty z
  | PStr s => repr_str s
  | PList items => "[" +:+ join_comma (map py_repr items) +:+ "]"
  end.

(** [str(v)], which is what an f-string placeholder [{v}] inserts. *)
Definition py_str (v : pyval) : string :=
  match v with
  | PStr s => s
  | _ => py_repr v
  end.
End Format.

(** Integer view of a value: [bool] is a subclass of [int]; [None],
    strings and lists are not numbers. *)
Definition as_int (v : pyval) : result Z :=
  match v with
  | PInt z => Ok z
  | PBool b => Ok (Z.b2z b)
  | _ => Raise TypeError
  end.

(** [s * k] and [k * s] for a sequence: [k] copies, none for [k <= 0]. *)
Fixpoint repeat_string (k : nat) (s : string) : string :=
  match k with
  | O => ""
  | S k' => s +:+ repeat_string k' s
  end.

Fixpoint repeat_list {A} (k : nat) (l : list A) : list A :=
  match k with
  | O => []
  | S k' => l ++ repeat_list k' l
  end.

(** [a - b]: defined between numbers only. *)
Definition py_sub (a b : pyval) : result pyval :=
  try x := as_int a in
  try y := as_int b in
  Ok (PInt (x - y)).

(** [k * b] for an [int] [k]: a product of numbers, or the repetition of
    a [str] or a [list]; [k * None] is an error. *)
Definition py_mul_int (k : Z) (b : pyval) : result pyval :=
  match b with
  | PInt n => Ok (PInt (k * n))
  | PBool c => Ok (PInt (k * Z.b2z c))
  | PStr s => Ok (PStr (repeat_string (Z.to_nat k) s))
  | PList l => Ok (PList (repeat_list (Z.to_nat k) l))
  | PNone => Raise TypeError
  end.

(** [a * b], as far as the left operand is a number. *)
Definition py_mul (a b : pyval) : result pyval :=
  try k := as_int a in py_mul_int k b.

(** [a < n] and [a > n] for an [int] [n]: an error unless [a] is a
    number. *)
Definition py_lt_int (a : pyval) (n : Z) : result bool :=
  try x := as_int a in Ok (x <? n).

Definition py_gt_int (a : pyval) (n : Z) : result bool :=
  try x := as_int a in Ok (n <? x).

(** *** Dictionaries *)

(** [d.get(k)] *)
Definition dict_get (d : gmap string pyval) (k : string) : pyval :=
  default PNone (d !! k).

(** [d[k]] *)
Definition dict_subscript (d : gmap string pyval) (k : string) : result pyval :=
  match d !! k with
  | Some v => Ok v
  | None => Raise (KeyError k)
  end.

(** *** True division of integers and [math.ceil]

    [a / b] on two [int]s yields the double nearest to the exact quotient
    (ties to even); a double is kept as a pair [(m, e)] standing for
    [m * 2^e]. *)

(** Nearest integer to [n / d], ties to even ([0 < d]). *)
Definition rne_div (n d : Z) : Z :=
  let q := n / d in
  let r := n mod d in
  if 2 * r <? d then q
  else if d <? 2 * r then q + 1
  else if Z.even q then q else q + 1.

(** [floor (log2 (a / b))] for [0 < a], [0 < b]. *)
Definition quot_exp (a b : Z) : Z :=
  let d := Z.log2 a - Z.log2 b in
  if 0 <=? d
  then (if b * 2 ^ d <=? a then d else d - 1)
  else (if b <=? a * 2 ^ (- d) then d else d - 1).

(** Magnitude of the rounded quotient of two positive integers: 53
    significant bits, or fewer below the normal range. *)
Definition div_mag (a b : Z) : Z * Z :=
  let e := Z.max (quot_exp a b - 52) (-1074) in
  let m := if 0 <=? e then rne_div a (b * 2 ^ e) else rne_div (a * 2 ^ (- e)) b in
  (m, e).

Definition float_ge_2_1024 (f : Z * Z) : bool :=
  let '(m, e) := f in
  if 0 <=? e then 2 ^ 1024 <=? m * 2 ^ e else false.

(** [a / b] for [int] operands: [ZeroDivisionError] for a zero divisor,
    [OverflowError] when the rounded quotient does not fit a double. *)
Definition int_true_div (a b : Z) : result (Z * Z) :=
  if b =? 0 then Raise ZeroDivisionError
  else if a =? 0 then Ok (0, 0)
  else
    let f := div_mag (Z.abs a) (Z.abs b) in
    if float_ge_2_1024 f then Raise OverflowError
    else Ok (Z.sgn a * Z.sgn b * fst f, snd f).

(** [math.ceil(f)] as an [int]. *)
Definition ceil (f : Z * Z) : Z :=
  let '(m, e) := f in
  if 0 <=? e then m * 2 ^ e else - ((- m) / 2 ^ (- e)).

(** [n / b] for an [int] [n]: an error unless [b] is a number. *)
Definition py_truediv_int (n : Z) (b : pyval) : result (Z * Z) :=
  try y := as_int b in int_true_div n y.

End Py.
Import Py.


(* ===================================================================== *)
(** ** SQLAlchemy expressions and queries                                 *)
(* ===================================================================== *)

Module Sql.

(** An instrumented attribute [Owner.name]. *)
Inductive Field : Type := Attr (owner name : string).

Inductive CmpOp : Type := OpEq | OpNe | OpLt | OpLe | OpGt | OpGe.

(** Criteria, one constructor per operator or method the helpers call.
    Whether the engine builds the expression or raises for the operand
    is decided where the operator is called (see [operator] below). *)
#[warnings="-register-all"]
Inductive Pred : Type :=
| Compare (op : CmpOp) (field : Field) (value : pyval)
| Like (field : Field) (pattern : string)          (* field.like(pattern) *)
| ILike (field : Field) (pattern : string)         (* field.ilike(pattern) *)
| StartsWith (field : Field) (value : pyval)       (* field.startswith(value) *)
| EndsWith (field : Field) (value : pyval)         (* field.endswith(value) *)
| In_ (field : Field) (value : pyval)              (* field.in_(value) *)
| NotIn (field : Field) (value : pyval)            (* field.notin_(value) *)
| Contains (field : Field) (value : pyval)         (* field.contains(value) *)
| Is (field : Field) (value : pyval)               (* field.is_(value) *)
| IsNot (field : Field) (value : pyval)            (* field.isnot(value) *)
| Or_ (clauses : list Pred)                        (* or_( *clauses ) *)
| Lifted (via : string) (inner : Pred).            (* e.g. Patient.tags.any(inner) *)

(** Queries are built lazily: every method returns a new query. *)
Inductive Query : Type :=
| ModelQuery (model : string)                      (* model.query *)
| Join (q : Query) (target : string)               (* q.join(target) *)
| Filter (q : Query) (criteria : list Pred)        (* q.filter( *criteria ) *)
| Distinct (q : Query) (on : Field)                (* q.distinct(on) *)
| Limit (q : Query) (n : Z)                        (* q.limit(n) *)
| Offset (q : Query) (n : Z)                       (* q.offset(n) *)
| NoLimit (q : Query)                              (* q.limit(None) *)
| NoOffset (q : Query).                            (* q.offset(None) *)

(** Requests that reach the database. *)
Inductive Exec : Type :=
| ExecCount (q : Query)                            (* q.count() *)
| ExecAll (q : Query).                             (* q.all() *)

(** [class PaginatedDataType(Generic[T])] of pagination.py: the page that
    is handed to the schema. *)
Record PaginatedDataType (T : Type) : Type := {
  items : list T;
  total_count : Z;
  total_page : Z;
  current_page : Z;
  has_next : bool;
  has_prev : bool;
}.
Arguments items {T} _.
Arguments total_count {T} _.
Arguments total_page {T} _.
Arguments current_page {T} _.
Arguments has_next {T} _.
Arguments has_prev {T} _.

(** What the pagination helpers rely on and do not define: the database
    behind the query objects, the marshmallow schema that renders a
    page, and the interpreter's [int()]. Each call may raise. *)
Record Backend : Type := {
  Row : Type;
  Schema : Type;
  Rendered : Type;
  (** [q.count()] *)
  run_count : Query → answer Z;
  (** [q.all()] *)
  run_all : Query → answer (list Row);
  (** [get_paginated_schema(SchemaClass)()]: [Some what] when defining or
      instantiating the schema raises [what] *)
  schema_error : Schema → option string;
  (** [paginated_schema.dump(page)] *)
  dump : Schema → PaginatedDataType Row → answer Rendered;
  (** [int(s)] for a [str]: [None] when it raises [ValueError] *)
  parse_int : string → option Z;
  (** truth of a criterion on a row, for every criterion other than a
      non-empty OR *)
  row_matches : Row → Pred → bool;
}.

Section Semantics.
Context (B : Backend).

(** A non-empty [or_] holds when one of its clauses does; what an
    [or_] without clauses means is left to the engine. *)
Fixpoint holds (r : Row B) (p : Pred) : bool :=
  match p with
  | Or_ (c :: cs) => existsb (holds r) (c :: cs)
  | _ => row_matches B r p
  end.

(** [filter] keeps the rows on which every criterion holds. *)
Definition passes (r : Row B) (criteria : list Pred) : bool :=
  forallb (holds r) criteria.
End Semantics.

End Sql.
Import Sql.

(* ===================================================================== *)
(** ** filter.py                                                          *)
(* ===================================================================== *)

(** [FieldConfigValueType]: [field] is required, [look_up] and [wrapper]
    may be missing. *)
Record FieldConfigValueType : Type := {
  field : Field;
  look_up : option string;
  wrapper : option (Pred → Pred);
}.

(** A value of [FilterConfigType], told apart at run time by
    [type(value) == dict] and [type(value) == list]; a value of any other
    type matches neither test. *)
Inductive ConfigValue : Type :=
| CfgDict (value : FieldConfigValueType)
| CfgList (value : list FieldConfigValueType)
| CfgOther.

(** The filter types [get_filter_arg] has a branch for, in the order of
    its docstring. *)
Definition filter_types : list string :=
  ["eq"; "ne"; "lt"; "le"; "gt"; "ge"; "like"; "ilike"; "starts"; "ends";
   "istarts"; "iends"; "in"; "not_in"; "contains"; "is_null"; "is_not_null"].

Section FilterPy.
Variable repr_str : string → string.

(** The engine's verdict on an operator call: [Some what] when building
    the expression raises [what] for this field and operand (SQLAlchemy
    raises [ArgumentError] for [in_] on a [str], for instance), [None]
    when the expression is built. *)
Variable operand_error : Pred → option string.

(** A call of an operator of [field] with the caller's value. *)
Definition operator (expression : Pred) : result Pred :=
  match operand_error expression with
  | None => Ok expression
  | Some what => Raise (CollaboratorError what)
  end.

(** [like] and [ilike] are handed a [str] that the helper has formatted
    and [is_] and [isnot] are handed [None]; these calls build their
    expression for every value. The other operators receive the value as
    it came. *)
Definition get_filter_arg (field : Field) (value : pyval) (filter_type : string)
  : result Pred :=
  if String.eqb filter_type "eq" then operator (Compare OpEq field value)
  else if String.eqb filter_type "ne" then operator (Compare OpNe field value)
  else if String.eqb filter_type "lt" then operator (Compare OpLt field value)
  else if String.eqb filter_type "le" then operator (Compare OpLe field value)
  else if String.eqb filter_type "gt" then operator (Compare OpGt field value)
  else if String.eqb filter_type "ge" then operator (Compare OpGe field value)
  else if String.eqb filter_type "like" then
    Ok (Like field ("%" +:+ py_str repr_str value +:+ "%"))
  else if String.eqb filter_type "ilike" then
    Ok (ILike field ("%" +:+ py_str repr_str value +:+ "%"))
  else if String.eqb filter_type "starts" then operator (StartsWith field value)
  else if String.eqb filter_type "ends" then operator (EndsWith field value)
  else if String.eqb filter_type "istarts" then
    Ok (ILike field (py_str repr_str value +:+ "%"))
  else if String.eqb filter_type "iends" then
    Ok (ILike field ("%" +:+ py_str repr_str value))
  else if String.eqb filter_type "in" then operator (In_ field value)
  else if String.eqb filter_type "not_in" then operator (NotIn field value)
  else if String.eqb filter_type "contains" then operator (Contains field value)
  else if String.eqb filter_type "is_null" then Ok (Is field PNone)
  else if String.eqb filter_type "is_not_null" then Ok (IsNot field PNone)
  else Raise (ValueError ("Invalid filter type: " +:+ filter_type)).

(** The loop over the alternatives of a list-valued entry (lines
    101-106), started with [or_filter_arguments = []]. *)
Fixpoint or_loop (args : gmap string pyval) (key : string)
    (value : list FieldConfigValueType) (or_filter_arguments : list Pred)
  : result (list Pred) :=
  match value with
  | [] => Ok or_filter_arguments
  | filter_config :: rest =>
      let filter_type := default "eq" (look_up filter_config) in
      let data_value := dict_get args key in
      if negb (truthy data_value) then
        or_loop args key rest or_filter_arguments
      else
        try v := dict_subscript args key in
        try filter_arg := get_filter_arg (field filter_config) v filter_type in
        let filter_arg :=
          match wrapper filter_config with
          | Some wrapper => wrapper filter_arg
          | None => filter_arg
          end in
        or_loop args key rest (or_filter_arguments ++ [filter_arg])
  end.

(** The loop over [field_config.items()] (lines 88-107), started with
    [filter_arguments = []]. *)
Fixpoint config_loop (args : gmap string pyval)
    (config_items : list (string * ConfigValue)) (filter_arguments : list Pred)
  : result (list Pred) :=
  match config_items with
  | [] => Ok filter_arguments
  | (key, CfgDict value) :: rest =>
      let filter_type := default "eq" (look_up value) in
      let data_value := dict_get args key in
      if negb (truthy data_value) then
        config_loop args rest filter_arguments
      else
        try v := dict_subscript args key in
        try filter_arg := get_filter_arg (field value) v filter_type in
        let filter_args :=
          match wrapper value with
          | Some wrapper => wrapper filter_arg
          | None => filter_arg
          end in
        config_loop args rest (filter_arguments ++ [filter_args])
  | (key, CfgList value) :: rest =>
      try or_filter_arguments := or_loop args key value [] in
      config_loop args rest (filter_arguments ++ [Or_ or_filter_arguments])
  | (key, CfgOther) :: rest =>
      config_loop args rest filter_arguments
  end.

(** [field_config] is given by its items in insertion order. *)
Definition get_filtered_query (model : string) (args : gmap string pyval)
    (field_config : list (string * ConfigValue)) (join_models : list string)
    (ignore_deleted : bool) : result Query :=
  try filter_arguments := config_loop args field_config [] in
  let query := fold_left Join join_models (ModelQuery model) in
  let filter_arguments :=
    if ignore_deleted
    then filter_arguments ++ [Compare OpEq (Attr model "deleted") (PBool false)]
    else filter_arguments in
  Ok (Distinct (Filter query filter_arguments) (Attr model "id")).
End FilterPy.

(* ===================================================================== *)
(** ** pagination.py                                                      *)
(* ===================================================================== *)

(** The dictionary a helper receives is the caller's object: it lives in
    the state, next to the trace of the requests sent to the database. *)
Record state : Type := {
  mapping : gmap string pyval;
  executed : list Exec;
}.

Definition M (A : Type) : Type := state → result A * state.

Definition ret {A} (a : A) : M A := λ s, (Ok a, s).

Definition bind {A B} (c : M A) (k : A → M B) : M B :=
  λ s, match c s with
       | (Ok a, s') => k a s'
       | (Raise e, s') => (Raise e, s')
       end.

Notation "'do' x '<-' c ';' k" := (bind c (λ x, k))
  (at level 10, x name, c at level 100, k at level 200,
   format "'[v' 'do'  x  '<-'  c ';' '/' k ']'").

(** An operation that touches neither the dictionary nor the database. *)
Definition lift {A} (r : result A) : M A := λ s, (r, s).

(** [d.get(key)] *)
Definition get (key : string) : M pyval :=
  λ s, (Ok (dict_get (mapping s) key), s).

(** [d.pop(key)], without a default: removes the key, or raises
    [KeyError] and leaves the dictionary as it is. *)
Definition pop (key : string) : M pyval :=
  λ s, match mapping s !! key with
       | Some v => (Ok v, {| mapping := delete key (mapping s); executed := executed s |})
       | None => (Raise (KeyError key), s)
       end.

Section PaginationPy.
Context (B : Backend).

(** A call into a collaborator that sends nothing to the database. *)
Definition call {A} (x : answer A) : M A := lift (of_answer x).

(** [q.count()]: the request is sent, then the database answers. *)
Definition count (q : Query) : M Z :=
  λ s, (of_answer (run_count B q),
        {| mapping := mapping s; executed := executed s ++ [ExecCount q] |}).

(** [q.all()] *)
Definition all (q : Query) : M (list (Row B)) :=
  λ s, (of_answer (run_all B q),
        {| mapping := mapping s; executed := executed s ++ [ExecAll q] |}).

(** The coercion SQLAlchemy (1.4 and later) applies to the operand of
    [limit] and [offset] when the method is called: [None] stays [None],
    anything else goes through [int()]. *)
Definition sql_asint (v : pyval) : answer (option Z) :=
  match v with
  | PNone => Returns None
  | PInt z => Returns (Some z)
  | PBool b => Returns (Some (Z.b2z b))
  | PStr s =>
      match parse_int B s with
      | Some z => Returns (Some z)
      | None => Fails "ValueError"
      end
  | PList _ => Fails "TypeError"
  end.

(** [q.limit(v)] *)
Definition limit (q : Query) (v : pyval) : M Query :=
  do n <- call (sql_asint v);
  ret (match n with Some n => Limit q n | None => NoLimit q end).

(** [q.offset(v)] *)
Definition offset (q : Query) (v : pyval) : M Query :=
  do n <- call (sql_asint v);
  ret (match n with Some n => Offset q n | None => NoOffset q end).

(** [queryset.limit(size)] is called first, then [(page - 1) * size] is
    computed, then [offset]. *)
Definition get_paginated_queryset (queryset : Query) (page size : pyval) : M Query :=
  do limited <- limit queryset size;
  do previous <- lift (py_sub page (PInt 1));
  do start <- lift (py_mul previous size);
  do queryset <- offset limited start;
  ret queryset.

(** [page_args] is the dictionary of the state. The statements run in
    the order of the source: the window is built, the schema is
    instantiated, [query.count()] is sent, [total_page], [has_next] and
    [has_prev] are computed, and [paginated_queryset.all()] is sent while
    the dictionary passed to [dump] is built. *)
Definition get_paginated_data (query : Query) (SchemaClass : Schema B)
  : M (Rendered B) :=
  do page <- get "page";
  let page := py_or page (PInt 1) in
  do size <- get "size";
  let size := py_or size (PInt 10) in
  do paginated_queryset <- get_paginated_queryset query page size;
  do paginated_schema <-
    call (match schema_error B SchemaClass with
          | None => Returns SchemaClass
          | Some what => Fails what
          end);
  do total_count <- count query;
  do quotient <- lift (py_truediv_int total_count size);
  let total_page := ceil quotient in
  do has_next <- lift (py_lt_int page total_page);
  do has_prev <- lift (py_gt_int page 1);
  do rows <- all paginated_queryset;
  (* [page] is a number here: [page < total_page] has been computed *)
  do current_page <- lift (as_int page);
  call (dump B paginated_schema
          {| items := rows;
             total_count := total_count;
             total_page := total_page;
             current_page := current_page;
             has_next := has_next;
             has_prev := has_prev |}).
End PaginationPy.

(** [args] is the dictionary of the state; the result is a new one. *)
Definition get_page_args : M (gmap string pyval) :=
  do page <- pop "page";
  let page := py_or page (PInt 1) in
  do size <- pop "size";
  let size := py_or size (PInt 10) in
  ret (<["page" := page]> (<["size" := size]> ∅)).


(* ===================================================================== *)
(** ** Vocabulary of the statements                                       *)
(* ===================================================================== *)

(** What an entry leaves in [filter_arguments] when its argument is
    absent or falsy. *)
Definition absent_entry (item : string * ConfigValue) : list Pred :=
  match item.2 with
  | CfgList _ => [Or_ []]
  | _ => []
  end.

(** The criterion [model.deleted == False], when asked for. *)
Definition deleted_criterion (model : string) (ignore_deleted : bool) : list Pred :=
  if ignore_deleted then [Compare OpEq (Attr model "deleted") (PBool false)] else [].

(** [filter_config.get('look_up', 'eq')] *)
Definition lookup_of (c : FieldConfigValueType) : string :=
  default "eq" (look_up c).

(** The criterion of an entry, given the expression [raw] built for its
    field: the wrapper's result when the entry has a wrapper, [raw]
    itself otherwise. *)
Definition wrap_clause (c : FieldConfigValueType) (raw : Pred) : Pred :=
  match wrapper c with
  | Some w => w raw
  | None => raw
  end.

(** The documented meaning of each filter type: the expression it stands
    for on [field] and [value]. *)
Definition operator_table (repr_str : string → string) (field : Field) (value : pyval)
  : list (string * Pred) :=
  [("eq", Compare OpEq field value);
   ("ne", Compare OpNe field value);
   ("lt", Compare OpLt field value);
   ("le", Compare OpLe field value);
   ("gt", Compare OpGt field value);
   ("ge", Compare OpGe field value);
   ("like", Like field ("%" +:+ py_str repr_str value +:+ "%"));
   ("ilike", ILike field ("%" +:+ py_str repr_str value +:+ "%"));
   ("starts", StartsWith field value);
   ("ends", EndsWith field value);
   ("istarts", ILike field (py_str repr_str value +:+ "%"));
   ("iends", ILike field ("%" +:+ py_str repr_str value));
   ("in", In_ field value);
   ("not_in", NotIn field value);
   ("contains", Contains field value);
   ("is_null", Is field PNone);
   ("is_not_null", IsNot field PNone)].

(** The filter types whose operand the helper makes itself (a formatted
    [str], or [None]), so that the engine has nothing to reject. *)
Definition own_operand_types : list string :=
  ["like"; "ilike"; "istarts"; "iends"; "is_null"; "is_not_null"].

(** The outcome of asking the engine for [expression]. *)
Definition engine_outcome (operand_error : Pred → option string) (expression : Pred)
  : result Pred :=
  match operand_error expression with
  | Some what => Raise (CollaboratorError what)
  | None => Ok expression
  end.

Section Entries.
Variable repr_str : string → string.
Variable operand_error : Pred → option string.

(** The clauses of an OR group for the argument value [v], alternative by
    alternative. *)
Fixpoint clauses_for (v : pyval) (alternatives : list FieldConfigValueType)
  : result (list Pred) :=
  match alternatives with
  | [] => Ok []
  | c :: cs =>
      try raw := get_filter_arg repr_str operand_error (field c) v (lookup_of c) in
      try rest := clauses_for v cs in
      Ok (wrap_clause c raw :: rest)
  end.

(** What one entry adds to [filter_arguments]. *)
Definition entry_criteria (args : gmap string pyval) (item : string * ConfigValue)
  : result (list Pred) :=
  let v := dict_get args item.1 in
  match item.2 with
  | CfgDict c =>
      if truthy v then
        try raw := get_filter_arg repr_str operand_error (field c) v (lookup_of c) in
        Ok [wrap_clause c raw]
      else Ok []
  | CfgList cs =>
      if truthy v then try clauses := clauses_for v cs in Ok [Or_ clauses]
      else Ok [Or_ []]
  | CfgOther => Ok []
  end.

End Entries.

(** An entry that adds an element to [filter_arguments]. *)
Definition contributes (args : gmap string pyval) (item : string * ConfigValue) : bool :=
  match item.2 with
  | CfgDict _ => truthy (dict_get args item.1)
  | CfgList _ => true
  | CfgOther => false
  end.

(** The state in which a helper is called with the dictionary [d]. *)
Definition called_with (d : gmap string pyval) : state :=
  {| mapping := d; executed := [] |}.

(** [s] with its dictionary replaced. *)
Definition with_mapping (d : gmap string pyval) (s : state) : state :=
  {| mapping := d; executed := executed s |}.

(** The window of page [page] of size [size]. *)
Definition page_window (query : Query) (page size : Z) : Query :=
  Offset (Limit query size) ((page - 1) * size).

(** *** Sample data *)

(** [repr] of a string of letters and digits. *)
Definition plain_repr (s : string) : string := "'" +:+ s +:+ "'".

(** The operand checks of SQLAlchemy's column operators: [in_] and
    [notin_] want a list, and [None], [True] and [False] are operands of
    [==] and [!=] only; the exception is [ArgumentError]. *)
Definition column_operands (expression : Pred) : option string :=
  match expression with
  | In_ _ (PList _) | NotIn _ (PList _) => None
  | In_ _ _ | NotIn _ _ => Some "ArgumentError"
  | Compare (OpLt | OpLe | OpGt | OpGe) _ (PNone | PBool _) => Some "ArgumentError"
  | StartsWith _ (PNone | PBool _) | EndsWith _ (PNone | PBool _)
  | Contains _ (PNone | PBool _) => Some "ArgumentError"
  | _ => None
  end.

(** [int()] on a string of ASCII digits with an optional minus sign; the
    samples hand it no other spelling of a number. *)
Fixpoint digits_value (s : string) (acc : Z) : option Z :=
  match s with
  | EmptyString => Some acc
  | String c rest =>
      let d := Z.of_nat (Ascii.nat_of_ascii c) - 48 in
      if (0 <=? d) && (d <=? 9) then digits_value rest (10 * acc + d) else None
  end.

Definition decimal_int (s : string) : option Z :=
  match s with
  | EmptyString => None
  | String c rest =>
      if Nat.eqb (Ascii.nat_of_ascii c) 45 (* a minus sign *) then
        match rest with
        | EmptyString => None
        | _ => Z.opp <$> digits_value rest 0
        end
      else digits_value s 0
  end.

(** A database that answers every count with [n] and every fetch with
    [rows]; the schema hands the page back as it is. *)
Definition fixed_backend (n : Z) (rows : list Z) : Backend :=
  {| Row := Z;
     Schema := unit;
     Rendered := PaginatedDataType Z;
     run_count := λ _, Returns n;
     run_all := λ _, Returns rows;
     schema_error := λ _, None;
     dump := λ _ page, Returns page;
     parse_int := decimal_int;
     row_matches := λ _ _, false |}.

(** A database whose connection is lost after the count. *)
Definition failing_fetch (n : Z) : Backend :=
  {| Row := Z;
     Schema := unit;
     Rendered := PaginatedDataType Z;
     run_count := λ _, Returns n;
     run_all := λ _, Fails "OperationalError";
     schema_error := λ _, None;
     dump := λ _ page, Returns page;
     parse_int := decimal_int;
     row_matches := λ _ _, false |}.

Definition users : Query := ModelQuery "User".

(** Two readings of a search term: the user name, or a tag of the user. *)
Definition by_name : FieldConfigValueType :=
  {| field := Attr "User" "name"; look_up := Some "ilike"; wrapper := None |}.

Definition by_tag : FieldConfigValueType :=
  {| field := Attr "Tag" "label"; look_up := None;
     wrapper := Some (Lifted "User.tags.any") |}.

(** A search among given ids. *)
Definition by_ids : FieldConfigValueType :=
  {| field := Attr "User" "id"; look_up := Some "in"; wrapper := None |}.

(** A search on the user name alone. *)
Definition name_only : list (string * ConfigValue) := [("name", CfgDict by_name)].

(** An entry with a filter type that does not exist. *)
Definition by_regex : FieldConfigValueType :=
  {| field := Attr "User" "name"; look_up := Some "regex"; wrapper := None |}.

(* ===================================================================== *)
(** ** Properties of filter.py                                            *)
(* ===================================================================== *)

Ltac in_list := repeat first [apply list_elem_of_here | apply list_elem_of_further].

Section FilterFacts.
Variable repr_str : string → string.
Variable operand_error : Pred → option string.

(** Case analysis along the [if]/[elif] chain of [get_filter_arg]. *)
Ltac split_filter_type ft :=
  repeat match goal with
    | |- context [String.eqb ft ?lit] =>
        destruct (String.eqb_spec ft lit) as [-> | ?]
    end.

Lemma get_filter_arg_not_listed field value ft :
  ft ∉ filter_types →
  get_filter_arg repr_str operand_error field value ft =
    Raise (ValueError ("Invalid filter type: " +:+ ft)).
Proof.
  intros Hout. unfold get_filter_arg.
  split_filter_type ft; try reflexivity;
    exfalso; apply Hout; unfold filter_types; in_list.
Qed.

Lemma operator_outcome expression :
  operator operand_error expression = engine_outcome operand_error expression.
Proof. unfold operator, engine_outcome. by destruct (operand_error expression). Qed.

Lemma get_filter_arg_table field value ft expression :
  (ft, expression) ∈ operator_table repr_str field value →
  get_filter_arg repr_str operand_error field value ft =
    if bool_decide (ft ∈ own_operand_types) then Ok expression
    else engine_outcome operand_error expression.
Proof.
  unfold operator_table. intros Hin.
  repeat (apply elem_of_cons in Hin as [[= -> ->] | Hin];
          [unfold get_filter_arg; simpl; rewrite ?operator_outcome; reflexivity |]).
  by apply elem_of_nil in Hin.
Qed.

Lemma listed_has_expression field value ft :
  ft ∈ filter_types ↔ ∃ expression, (ft, expression) ∈ operator_table repr_str field value.
Proof.
  split.
  - unfold filter_types. intros Hin.
    repeat (apply elem_of_cons in Hin as [-> | Hin];
            [eexists; unfold operator_table; in_list |]).
    by apply elem_of_nil in Hin.
  - unfold operator_table. intros [expression Hin].
    repeat (apply elem_of_cons in Hin as [[= -> _] | Hin];
            [unfold filter_types; in_list |]).
    by apply elem_of_nil in Hin.
Qed.

(** What [get_filter_arg] can raise. *)
Lemma get_filter_arg_raise_kind field value ft e :
  get_filter_arg repr_str operand_error field value ft = Raise e →
  ((ft ∉ filter_types) ∧ e = ValueError ("Invalid filter type: " +:+ ft)) ∨
  ((ft ∈ filter_types) ∧ ∃ what, e = CollaboratorError what).
Proof.
  destruct (decide (ft ∈ filter_types)) as [Hin | Hout].
  - destruct (proj1 (listed_has_expression field value ft) Hin) as [expression Htable].
    rewrite (get_filter_arg_table _ _ _ _ Htable).
    destruct (bool_decide (ft ∈ own_operand_types)); [done |].
    unfold engine_outcome. destruct (operand_error expression) as [what |]; [| done].
    intros [= <-]. right. eauto.
  - rewrite get_filter_arg_not_listed by done. intros [= <-]. by left.
Qed.

(** C4 (amended): [get_filter_arg] raises its own error, the
    [ValueError] "Invalid filter type", exactly for a filter type outside
    the enumeration; no filter type falls through to a default. For a
    filter type of the enumeration it asks for the expression that the
    type stands for: [like], [ilike], [istarts], [iends], [is_null] and
    [is_not_null] always return it, the other types return it unless
    the engine's operator refuses the operand, and then the engine's
    error is what the call raises. *)
Theorem get_filter_arg_outcomes field value ft :
  (ft ∉ filter_types ↔
   get_filter_arg repr_str operand_error field value ft =
     Raise (ValueError ("Invalid filter type: " +:+ ft))) ∧
  (ft ∈ filter_types ↔
   ∃ expression,
     (ft, expression) ∈ operator_table repr_str field value ∧
     get_filter_arg repr_str operand_error field value ft =
       if bool_decide (ft ∈ own_operand_types) then Ok expression
       else match operand_error expression with
            | Some what => Raise (CollaboratorError what)
            | None => Ok expression
            end).
Proof.
  split; split.
  - apply get_filter_arg_not_listed.
  - intros Hraise Hin.
    destruct (get_filter_arg_raise_kind _ _ _ _ Hraise) as [[Hout _] | [_ [what [=]]]].
    by apply Hout.
  - intros Hin.
    destruct (proj1 (listed_has_expression field value ft) Hin) as [expression Htable].
    exists expression. split; [done |]. by apply get_filter_arg_table.
  - intros [expression [Htable _]]. apply (listed_has_expression field value). eauto.
Qed.

(** C6: the patterns of the string lookups. [like] and [ilike] wrap the
    formatted value in [%] on both sides, [istarts] and [iends] are an
    [ilike] with the wildcard on one side only, and [is_null] and
    [is_not_null] give the same nullity test whatever the value is. *)
Theorem get_filter_arg_string_patterns field value :
  get_filter_arg repr_str operand_error field value "like" =
    Ok (Like field ("%" +:+ py_str repr_str value +:+ "%")) ∧
  get_filter_arg repr_str operand_error field value "ilike" =
    Ok (ILike field ("%" +:+ py_str repr_str value +:+ "%")) ∧
  get_filter_arg repr_str operand_error field value "istarts" =
    Ok (ILike field (py_str repr_str value +:+ "%")) ∧
  get_filter_arg repr_str operand_error field value "iends" =
    Ok (ILike field ("%" +:+ py_str repr_str value)) ∧
  (∀ text, py_str repr_str (PStr text) = text) ∧
  (∀ other, get_filter_arg repr_str operand_error field other "is_null" =
            Ok (Is field PNone)) ∧
  (∀ other, get_filter_arg repr_str operand_error field other "is_not_null" =
            Ok (IsNot field PNone)).
Proof. repeat split. Qed.

(** *** Absent arguments *)

Lemma or_loop_absent args key alternatives acc :
  truthy (dict_get args key) = false →
  or_loop repr_str operand_error args key alternatives acc = Ok acc.
Proof.
  intros Habsent. induction alternatives as [| c cs IH]; simpl; [done |].
  by rewrite Habsent.
Qed.

Lemma config_loop_absent args config acc :
  Forall (λ item, truthy (dict_get args item.1) = false) config →
  config_loop repr_str operand_error args config acc =
    Ok (acc ++ flat_map absent_entry config).
Proof.
  intros Habsent. revert acc.
  induction Habsent as [| [key value] rest Hkey _ IH]; intros acc; simpl.
  - by rewrite app_nil_r.
  - simpl in Hkey. destruct value as [c | cs |]; simpl.
    + rewrite Hkey. simpl. apply IH.
    + rewrite (or_loop_absent _ _ _ _ Hkey). simpl.
      rewrite IH. by rewrite <- app_assoc.
    + apply IH.
Qed.

Lemma get_filtered_query_unfold model args config join_models ignore_deleted :
  get_filtered_query repr_str operand_error model args config join_models ignore_deleted =
  try filter_arguments := config_loop repr_str operand_error args config [] in
  Ok (Distinct
        (Filter (fold_left Join join_models (ModelQuery model))
                (filter_arguments ++ deleted_criterion model ignore_deleted))
        (Attr model "id")).
Proof.
  unfold get_filtered_query, deleted_criterion.
  destruct (config_loop repr_str operand_error args config []) as [fa | e]; simpl; [| done].
  destruct ignore_deleted; [done | by rewrite app_nil_r].
Qed.

(** C1 (amended): when the argument of every configured key is absent or
    falsy, no criterion is built from any field; a dict-valued entry adds
    nothing, while every list-valued entry still adds one entry, the OR of
    no clauses. The criteria of the returned query are therefore exactly
    one empty OR per list-valued key, in configuration order, followed by
    the soft-delete test when [ignore_deleted] is set; without list-valued
    keys this is the unfiltered base query, joined and distinct on the
    id. *)
Theorem get_filtered_query_all_absent model args config join_models ignore_deleted :
  Forall (λ item, truthy (dict_get args item.1) = false) config →
  get_filtered_query repr_str operand_error model args config join_models ignore_deleted =
    Ok (Distinct
          (Filter (fold_left Join join_models (ModelQuery model))
                  (flat_map absent_entry config ++ deleted_criterion model ignore_deleted))
          (Attr model "id")) ∧
  (Forall (λ item, ∀ cs, item.2 ≠ CfgList cs) config →
   get_filtered_query repr_str operand_error model args config join_models ignore_deleted =
     Ok (Distinct
           (Filter (fold_left Join join_models (ModelQuery model))
                   (deleted_criterion model ignore_deleted))
           (Attr model "id"))).
Proof.
  intros Habsent.
  assert (Hq := get_filtered_query_unfold model args config join_models ignore_deleted).
  rewrite (config_loop_absent _ _ [] Habsent) in Hq. simpl in Hq.
  split; [exact Hq |].
  - intros Hnolist. rewrite Hq.
    replace (flat_map absent_entry config) with (@nil Pred); [done |].
    clear -Hnolist. induction Hnolist as [| [key value] rest Hv _ IH]; simpl; [done |].
    destruct value as [c | cs |]; simpl; auto.
    by destruct (Hv cs).
Qed.

(** *** Present arguments *)

Lemma or_loop_acc args key alternatives acc :
  or_loop repr_str operand_error args key alternatives acc =
  try built := or_loop repr_str operand_error args key alternatives [] in Ok (acc ++ built).
Proof.
  revert acc. induction alternatives as [| c cs IH]; intros acc; simpl.
  - by rewrite app_nil_r.
  - destruct (truthy (dict_get args key)); simpl; [| apply IH].
    destruct (dict_subscript args key) as [v | e]; simpl; [| done].
    destruct (get_filter_arg _ _ _ _ _) as [raw | e]; simpl; [| done].
    rewrite (IH (acc ++ _)), (IH [_]).
    destruct (or_loop repr_str operand_error args key cs []) as [built | e]; simpl; [| done].
    by rewrite <- app_assoc.
Qed.

Lemma config_loop_acc args config acc :
  config_loop repr_str operand_error args config acc =
  try built := config_loop repr_str operand_error args config [] in Ok (acc ++ built).
Proof.
  revert acc. induction config as [| [key value] rest IH]; intros acc; simpl.
  - by rewrite app_nil_r.
  - destruct value as [c | cs |]; simpl; [| | apply IH].
    + destruct (truthy (dict_get args key)); simpl; [| apply IH].
      destruct (dict_subscript args key) as [v | e]; simpl; [| done].
      destruct (get_filter_arg _ _ _ _ _) as [raw | e]; simpl; [| done].
      rewrite (IH (acc ++ _)), (IH [_]).
      destruct (config_loop repr_str operand_error args rest []) as [built | e];
        simpl; [| done].
      by rewrite <- app_assoc.
    + destruct (or_loop repr_str operand_error args key cs []) as [ors | e]; simpl; [| done].
      rewrite (IH (acc ++ _)), (IH [_]).
      destruct (config_loop repr_str operand_error args rest []) as [built | e];
        simpl; [| done].
      by rewrite <- app_assoc.
Qed.

Lemma config_loop_app args before after acc :
  config_loop repr_str operand_error args (before ++ after) acc =
  try built := config_loop repr_str operand_error args before acc in
  config_loop repr_str operand_error args after built.
Proof.
  revert acc. induction before as [| [key value] rest IH]; intros acc; simpl; [done |].
  destruct value as [c | cs |]; simpl; [| | apply IH].
  - destruct (truthy (dict_get args key)); simpl; [| apply IH].
    destruct (dict_subscript args key) as [v | e]; simpl; [| done].
    destruct (get_filter_arg _ _ _ _ _) as [raw | e]; simpl; [| done].
    apply IH.
  - destruct (or_loop repr_str operand_error args key cs []) as [ors | e]; simpl; [| done].
    apply IH.
Qed.

Lemma truthy_dict_get (args : gmap string pyval) key :
  truthy (dict_get args key) = true →
  args !! key = Some (dict_get args key) ∧ dict_subscript args key = Ok (dict_get args key).
Proof.
  unfold dict_get, dict_subscript. destruct (args !! key) as [v |]; simpl; done.
Qed.

Lemma dict_get_present (args : gmap string pyval) key v :
  args !! key = Some v → dict_get args key = v.
Proof. unfold dict_get. by intros ->. Qed.

(** The OR group of an entry whose argument is truthy, clause by
    clause. *)
Lemma or_loop_truthy args key alternatives acc :
  truthy (dict_get args key) = true →
  or_loop repr_str operand_error args key alternatives acc =
  try clauses := clauses_for repr_str operand_error (dict_get args key) alternatives in
  Ok (acc ++ clauses).
Proof.
  intros Htrue. destruct (truthy_dict_get args key Htrue) as [_ Hsub].
  revert acc. induction alternatives as [| c cs IH]; intros acc; simpl.
  - by rewrite app_nil_r.
  - rewrite Htrue, Hsub. simpl. unfold lookup_of.
    destruct (get_filter_arg _ _ _ _ _) as [raw | e]; simpl; [| done].
    rewrite IH.
    destruct (clauses_for repr_str operand_error (dict_get args key) cs) as [rest | e];
      simpl; [| done].
    by rewrite <- app_assoc.
Qed.

Lemma clauses_for_returned v alternatives raws :
  Forall2 (λ c raw,
             get_filter_arg repr_str operand_error (field c) v (lookup_of c) = Ok raw)
          alternatives raws →
  clauses_for repr_str operand_error v alternatives =
    Ok (zip_with wrap_clause alternatives raws).
Proof.
  induction 1 as [| c raw cs raws Hraw _ IH]; simpl; [done |].
  by rewrite Hraw, IH.
Qed.

(** What a single entry leaves in [filter_arguments]. *)
Lemma config_loop_entry args item :
  config_loop repr_str operand_error args [item] [] =
  entry_criteria repr_str operand_error args item.
Proof.
  destruct item as [key value]. unfold entry_criteria. simpl fst. simpl snd.
  destruct value as [c | cs |]; simpl; [| | done].
  - destruct (truthy (dict_get args key)) eqn:Htrue; simpl; [| done].
    destruct (truthy_dict_get args key Htrue) as [_ ->]. simpl. unfold lookup_of.
    by destruct (get_filter_arg _ _ _ _ _).
  - destruct (truthy (dict_get args key)) eqn:Htrue.
    + rewrite (or_loop_truthy _ _ _ _ Htrue).
      by destruct (clauses_for _ _ _ _).
    + by rewrite (or_loop_absent _ _ _ _ Htrue).
Qed.

Lemma config_loop_cons args item rest :
  config_loop repr_str operand_error args (item :: rest) [] =
  try head := entry_criteria repr_str operand_error args item in
  try tail := config_loop repr_str operand_error args rest [] in
  Ok (head ++ tail).
Proof.
  change (item :: rest) with ([item] ++ rest).
  rewrite config_loop_app, config_loop_entry.
  destruct (entry_criteria repr_str operand_error args item) as [head | e]; simpl; [| done].
  apply config_loop_acc.
Qed.

Lemma holds_or (B : Backend) (row : Row B) clauses :
  clauses ≠ [] →
  holds B row (Or_ clauses) = true ↔
  ∃ clause, clause ∈ clauses ∧ holds B row clause = true.
Proof.
  intros Hne. destruct clauses as [| c cs]; [done |].
  change (holds B row (Or_ (c :: cs))) with (existsb (holds B row) (c :: cs)).
  rewrite existsb_exists. by setoid_rewrite list_elem_of_In.
Qed.

Lemma passes_app (B : Backend) (row : Row B) ps qs :
  passes B row (ps ++ qs) = passes B row ps && passes B row qs.
Proof. unfold passes. induction ps as [| p ps IH]; simpl; [done |]. by rewrite IH, andb_assoc. Qed.

(** C7: a list-valued entry under key [key] whose argument [v] is present
    and truthy contributes one clause per alternative: the expression
    [get_filter_arg] returns for that alternative's field and filter type
    on the same [v], passed through that alternative's own wrapper when
    it has one. The clauses are joined by [or_], in the order of the
    alternatives, and the OR is one entry of [filter_arguments], at the
    entry's place in the configuration. A row satisfies that entry
    exactly when it satisfies one of the clauses. *)
Theorem get_filtered_query_or_group
    model args before key alternatives after join_models ignore_deleted v raws P1 P2 :
  args !! key = Some v → truthy v = true →
  alternatives ≠ [] →
  Forall2 (λ c raw,
             get_filter_arg repr_str operand_error (field c) v (lookup_of c) = Ok raw)
          alternatives raws →
  config_loop repr_str operand_error args before [] = Ok P1 →
  config_loop repr_str operand_error args after [] = Ok P2 →
  get_filtered_query repr_str operand_error model args
    (before ++ (key, CfgList alternatives) :: after) join_models ignore_deleted =
    Ok (Distinct
          (Filter (fold_left Join join_models (ModelQuery model))
                  (P1 ++ Or_ (zip_with wrap_clause alternatives raws)
                      :: P2 ++ deleted_criterion model ignore_deleted))
          (Attr model "id")) ∧
  length (zip_with wrap_clause alternatives raws) = length alternatives ∧
  ∀ (B : Backend) (row : Row B),
    (holds B row (Or_ (zip_with wrap_clause alternatives raws)) = true ↔
     ∃ clause, clause ∈ zip_with wrap_clause alternatives raws ∧
               holds B row clause = true) ∧
    (passes B row (P1 ++ Or_ (zip_with wrap_clause alternatives raws)
                      :: P2 ++ deleted_criterion model ignore_deleted) = true ↔
     passes B row P1 = true ∧
     (∃ clause, clause ∈ zip_with wrap_clause alternatives raws ∧
                holds B row clause = true) ∧
     passes B row (P2 ++ deleted_criterion model ignore_deleted) = true).
Proof.
  intros Hv Htrue Hne Hraws Hbefore Hafter.
  assert (Hlen : length (zip_with wrap_clause alternatives raws) = length alternatives).
  { rewrite length_zip_with. apply Forall2_length in Hraws. lia. }
  split; [| split; [done |]].
  - rewrite get_filtered_query_unfold, config_loop_app, Hbefore. cbn [rbind].
    rewrite config_loop_acc, config_loop_cons. unfold entry_criteria. simpl fst. simpl snd.
    rewrite (dict_get_present _ _ _ Hv), Htrue.
    rewrite (clauses_for_returned _ _ _ Hraws), Hafter. cbn [rbind].
    by rewrite <- !app_assoc.
  - intros B row.
    assert (Hcl : zip_with wrap_clause alternatives raws ≠ []).
    { intros Hnil. rewrite Hnil in Hlen. by destruct alternatives. }
    split; [by apply holds_or |].
    rewrite passes_app. change (Or_ ?cl :: ?l) with ([Or_ cl] ++ l).
    rewrite passes_app, !andb_true_iff.
    unfold passes at 2. simpl forallb. rewrite andb_true_r.
    by rewrite (holds_or B row _ Hcl).
Qed.
End FilterFacts.

(** *** Evaluation on sample configurations *)

Example or_group_for_bob :
  get_filtered_query plain_repr column_operands "User" {["q" := PStr "bob"]}
    [("q", CfgList [by_name; by_tag])] [] false =
  Ok (Distinct
        (Filter users
           [Or_ [ILike (Attr "User" "name") "%bob%";
                 Lifted "User.tags.any" (Compare OpEq (Attr "Tag" "label") (PStr "bob"))]])
        (Attr "User" "id")).
Proof. reflexivity. Qed.

Example invalid_filter_type_raises :
  get_filtered_query plain_repr column_operands "User" {["q" := PStr "bob"]}
    [("q", CfgDict by_regex)] [] false =
  Raise (ValueError "Invalid filter type: regex").
Proof. reflexivity. Qed.

Example ids_given_as_a_list :
  get_filtered_query plain_repr column_operands "User" {["ids" := PList [PInt 3; PInt 5]]}
    [("ids", CfgDict by_ids)] [] false =
  Ok (Distinct (Filter users [In_ (Attr "User" "id") (PList [PInt 3; PInt 5])])
        (Attr "User" "id")).
Proof. reflexivity. Qed.

Example ids_given_as_a_string :
  get_filtered_query plain_repr column_operands "User" {["ids" := PStr "bob"]}
    [("ids", CfgDict by_ids)] [] false =
  Raise (CollaboratorError "ArgumentError").
Proof. reflexivity. Qed.

Lemma get_filtered_query_all_absent_witness :
  get_filtered_query plain_repr column_operands "User" {["name" := PStr ""]}
    [("name", CfgDict by_name); ("q", CfgList [by_name; by_tag])] ["Tag"] true =
  Ok (Distinct
        (Filter (Join users "Tag")
           [Or_ []; Compare OpEq (Attr "User" "deleted") (PBool false)])
        (Attr "User" "id")).
Proof.
  apply (get_filtered_query_all_absent plain_repr column_operands "User"
           {["name" := PStr ""]}
           [("name", CfgDict by_name); ("q", CfgList [by_name; by_tag])] ["Tag"] true).
  repeat constructor.
Defined.

(** C1, as stated, fails for a list-valued entry: with no argument at
    all, the entry under ["q"] still adds the OR of no clauses, so the
    criteria are not those of the unfiltered query. *)
Lemma empty_or_group_is_appended :
  get_filtered_query plain_repr column_operands "User" ∅
    [("q", CfgList [by_name; by_tag])] [] false =
    Ok (Distinct (Filter users [Or_ []]) (Attr "User" "id")) ∧
  get_filtered_query plain_repr column_operands "User" ∅
    [("q", CfgList [by_name; by_tag])] [] false ≠
    Ok (Distinct (Filter users []) (Attr "User" "id")).
Proof. split; [reflexivity | discriminate]. Qed.

(** C4, as stated, fails for a filter type of the enumeration whose
    operator refuses the operand: ['in'] is listed, yet on the string
    ['bob'] the call returns no predicate, it raises the
    [ArgumentError] of [in_]. *)
Lemma listed_filter_type_raises :
  "in" ∈ filter_types ∧
  get_filter_arg plain_repr column_operands (Attr "User" "id") (PStr "bob") "in" =
    Raise (CollaboratorError "ArgumentError") ∧
  ¬ (∃ predicate,
       get_filter_arg plain_repr column_operands (Attr "User" "id") (PStr "bob") "in" =
         Ok predicate).
Proof.
  split; [unfold filter_types; in_list |].
  split; [reflexivity |]. by intros [predicate Hok].
Qed.

Lemma get_filtered_query_or_group_witness :
  get_filtered_query plain_repr column_operands "User" {["q" := PStr "bob"]}
    ([] ++ ("q", CfgList [by_name; by_tag]) :: []) [] false =
    Ok (Distinct
          (Filter users
             ([] ++ Or_ [ILike (Attr "User" "name") "%bob%";
                         Lifted "User.tags.any"
                           (Compare OpEq (Attr "Tag" "label") (PStr "bob"))]
                 :: [] ++ []))
          (Attr "User" "id")) ∧
  length [ILike (Attr "User" "name") "%bob%";
          Lifted "User.tags.any" (Compare OpEq (Attr "Tag" "label") (PStr "bob"))] =
    length [by_name; by_tag] ∧
  ∀ (B : Backend) (row : Row B),
    (holds B row
       (Or_ [ILike (Attr "User" "name") "%bob%";
             Lifted "User.tags.any" (Compare OpEq (Attr "Tag" "label") (PStr "bob"))])
     = true ↔
     ∃ clause,
       clause ∈ [ILike (Attr "User" "name") "%bob%";
                 Lifted "User.tags.any" (Compare OpEq (Attr "Tag" "label") (PStr "bob"))] ∧
       holds B row clause = true) ∧
    (passes B row
       ([] ++ Or_ [ILike (Attr "User" "name") "%bob%";
                   Lifted "User.tags.any" (Compare OpEq (Attr "Tag" "label") (PStr "bob"))]
           :: [] ++ []) = true ↔
     passes B row [] = true ∧
     (∃ clause,
        clause ∈ [ILike (Attr "User" "name") "%bob%";
                  Lifted "User.tags.any" (Compare OpEq (Attr "Tag" "label") (PStr "bob"))] ∧
        holds B row clause = true) ∧
     passes B row ([] ++ []) = true).
Proof.
  refine (get_filtered_query_or_group plain_repr column_operands "User"
            {["q" := PStr "bob"]} [] "q" [by_name; by_tag] [] [] false (PStr "bob")
            [ILike (Attr "User" "name") "%bob%";
             Compare OpEq (Attr "Tag" "label") (PStr "bob")] [] [] _ _ _ _ _ _).
  - reflexivity.
  - reflexivity.
  - discriminate.
  - repeat constructor.
  - reflexivity.
  - reflexivity.
Defined.

(* ===================================================================== *)
(** ** True division followed by [ceil]                                   *)
(* ===================================================================== *)

Lemma rne_div_floor n d : 0 < d → n / d ≤ rne_div n d ≤ n / d + 1.
Proof.
  intros Hd. unfold rne_div.
  repeat match goal with |- context [if ?c then _ else _] => destruct c end; lia.
Qed.

Lemma rne_div_exact n d : 0 < d → n mod d = 0 → rne_div n d = n / d.
Proof.
  intros Hd Hr. unfold rne_div. rewrite Hr.
  destruct (Z.ltb_spec (2 * 0) d); [done | lia].
Qed.

Lemma rne_div_up n d : 0 < d → d < 2 * (n mod d) → rne_div n d = n / d + 1.
Proof.
  intros Hd Hr. unfold rne_div.
  destruct (Z.ltb_spec (2 * (n mod d)) d); [lia |].
  destruct (Z.ltb_spec d (2 * (n mod d))); [done | lia].
Qed.

(** The rounded quotient of [n / d] lies strictly above every integer
    that [n / d] exceeds by more than a half, and below every integer
    bound of [n / d]. *)
Lemma rne_div_above n d lo : 0 < d → 2 * lo * d + d < 2 * n → lo < rne_div n d.
Proof.
  intros Hd Hlo.
  pose proof (Z.div_mod n d ltac:(lia)) as Hdm.
  pose proof (Z.mod_pos_bound n d Hd) as Hr.
  pose proof (rne_div_floor n d Hd) as Hf.
  destruct (Z.lt_ge_cases lo (n / d)) as [Hq | Hq]; [lia |].
  assert (n / d = lo) as Heq by nia.
  rewrite rne_div_up; [lia | done |]. nia.
Qed.

Lemma rne_div_below n d hi : 0 < d → n ≤ hi * d → rne_div n d ≤ hi.
Proof.
  intros Hd Hhi.
  pose proof (Z.div_mod n d ltac:(lia)) as Hdm.
  pose proof (Z.mod_pos_bound n d Hd) as Hr.
  pose proof (rne_div_floor n d Hd) as Hf.
  destruct (Z.eq_dec (n mod d) 0) as [H0 | H0].
  - rewrite rne_div_exact by done. nia.
  - assert (n / d < hi) by nia. lia.
Qed.

Lemma quot_exp_upper a b : 0 < a → 0 < b → quot_exp a b ≤ Z.log2 a - Z.log2 b.
Proof.
  intros Ha Hb. unfold quot_exp.
  repeat match goal with |- context [if ?c then _ else _] => destruct c end; lia.
Qed.

Lemma quot_exp_lower a b :
  0 < a → 0 < b →
  if 0 <=? quot_exp a b then b * 2 ^ quot_exp a b ≤ a
  else b ≤ a * 2 ^ (- quot_exp a b).
Proof.
  intros Ha Hb. unfold quot_exp.
  destruct (Z.log2_spec a Ha) as [Hla Hua].
  destruct (Z.log2_spec b Hb) as [Hlb Hub].
  pose proof (Z.log2_nonneg a) as Hna. pose proof (Z.log2_nonneg b) as Hnb.
  set (la := Z.log2 a) in *. set (lb := Z.log2 b) in *.
  rewrite <- Z.add_1_r in Hua, Hub.
  destruct (Z.leb_spec 0 (la - lb)) as [Hd | Hd].
  - destruct (Z.leb_spec (b * 2 ^ (la - lb)) a) as [Hfit | Hfit].
    + destruct (Z.leb_spec 0 (la - lb)); [done | lia].
    + destruct (Z.leb_spec 0 (la - lb - 1)) as [Hd1 | Hd1].
      * assert (2 ^ la = 2 ^ (lb + 1) * 2 ^ (la - lb - 1)) as Hsplit.
        { rewrite <- Z.pow_add_r by lia. f_equal; lia. }
        assert (0 < 2 ^ (la - lb - 1)) by (apply Z.pow_pos_nonneg; lia).
        nia.
      * replace (- (la - lb - 1)) with 1 by lia.
        assert (la = lb) as Heq by lia. rewrite Heq in *.
        rewrite Z.pow_add_r in Hub by lia. lia.
  - destruct (Z.leb_spec b (a * 2 ^ (- (la - lb)))) as [Hfit | Hfit].
    + destruct (Z.leb_spec 0 (la - lb)); [lia | done].
    + destruct (Z.leb_spec 0 (la - lb - 1)); [lia |].
      assert (2 ^ (lb + 1) = 2 ^ la * 2 ^ (- (la - lb - 1))) as Hsplit.
      { rewrite <- Z.pow_add_r by lia. f_equal; lia. }
      assert (0 < 2 ^ (- (la - lb - 1))) by (apply Z.pow_pos_nonneg; lia).
      nia.
Qed.

Lemma div_mag_scale a b :
  0 < a < 2 ^ 53 → 0 < b < 2 ^ 1075 →
  let sh := Z.max (quot_exp a b - 52) (-1074) in
  -1074 ≤ sh ≤ 0 ∧ b < 2 * 2 ^ (- sh).
Proof.
  intros [Ha Ha53] [Hb Hbmax] sh.
  pose proof (quot_exp_upper a b Ha Hb) as Hup.
  pose proof (quot_exp_lower a b Ha Hb) as Hlow.
  assert (Z.log2 a < 53) as Hla by (by apply Z.log2_lt_pow2).
  pose proof (Z.log2_nonneg b) as Hlb.
  set (e := quot_exp a b) in *.
  assert (e ≤ 52) as He by lia.
  split; [lia |].
  destruct (Z.max_spec (e - 52) (-1074)) as [[Hlt Hmax] | [Hle Hmax]];
    fold sh in Hmax; rewrite Hmax.
  - replace (2 * 2 ^ (- -1074)) with (2 ^ 1075) by done. lia.
  - assert (2 * 2 ^ (- (e - 52)) = 2 ^ (53 - e)) as ->.
    { replace (53 - e) with (1 + - (e - 52)) by lia.
      rewrite Z.pow_add_r by lia. done. }
    destruct (Z.leb_spec 0 e) as [Hpos | Hneg].
    + assert (2 ^ 53 = 2 ^ e * 2 ^ (53 - e)) as Hsplit.
      { rewrite <- Z.pow_add_r by lia. f_equal; lia. }
      assert (0 < 2 ^ e) by (apply Z.pow_pos_nonneg; lia).
      nia.
    + assert (2 ^ (53 - e) = 2 ^ 53 * 2 ^ (- e)) as ->.
      { rewrite <- Z.pow_add_r by lia. f_equal; lia. }
      assert (0 < 2 ^ (- e)) by (apply Z.pow_pos_nonneg; lia).
      nia.
Qed.

Lemma ceil_scaled m k c : 0 ≤ k → (c - 1) * 2 ^ k < m ≤ c * 2 ^ k → - (- m / 2 ^ k) = c.
Proof.
  intros Hk [Hlo Hhi].
  assert (0 < 2 ^ k) as Hp by (apply Z.pow_pos_nonneg; lia).
  pose proof (Z.div_mod (- m) (2 ^ k) ltac:(lia)) as Hdm.
  pose proof (Z.mod_pos_bound (- m) (2 ^ k) Hp) as Hr.
  nia.
Qed.

Lemma int_true_div_ceil a b :
  0 ≤ a < 2 ^ 53 → 1 ≤ b < 2 ^ 1075 →
  ∃ f, int_true_div a b = Ok f ∧ (ceil f - 1) * b < a ≤ ceil f * b.
Proof.
  intros [Ha Ha53] [Hb Hbmax]. unfold int_true_div.
  destruct (Z.eqb_spec b 0) as [? | _]; [lia |].
  destruct (Z.eqb_spec a 0) as [-> | Hnz].
  { exists (0, 0). split; [done |]. unfold ceil.
    change (0 <=? 0) with true. cbv iota. lia. }
  rewrite (Z.abs_eq a), (Z.abs_eq b) by lia.
  destruct (div_mag_scale a b ltac:(lia) ltac:(lia)) as [Hsh Hbk].
  unfold div_mag, float_ge_2_1024.
  set (sh := Z.max (quot_exp a b - 52) (-1074)) in *.
  rewrite (Z.sgn_pos a), (Z.sgn_pos b) by lia.
  (* the exact ceiling [c] of the quotient *)
  set (c := - (- a / b)).
  assert ((c - 1) * b < a ≤ c * b) as Hc.
  { pose proof (Z.div_mod (- a) b ltac:(lia)) as Hdm.
    pose proof (Z.mod_pos_bound (- a) b ltac:(lia)) as Hr.
    subst c. nia. }
  destruct (Z.leb_spec 0 sh) as [Hzero | Hneg].
  - assert (sh = 0) as Hsh0 by lia. rewrite Hsh0 in *.
    change (2 ^ (- 0)) with 1 in Hbk. change (2 ^ 0) with 1.
    assert (b = 1) as -> by lia.
    rewrite rne_div_exact by (rewrite ?Z.mod_1_r; lia).
    rewrite Z.div_1_r.
    destruct (Z.leb_spec (2 ^ 1024) (a * 1)) as [Hbig | _].
    { exfalso. assert (2 ^ 53 ≤ 2 ^ 1024) by (apply Z.pow_le_mono_r; lia). lia. }
    eexists. split; [reflexivity |]. unfold ceil, fst, snd.
    change (0 <=? 0) with true. cbv iota. change (2 ^ 0) with 1. lia.
  - set (k := - sh) in *.
    assert (0 < 2 ^ k) as Hp by (apply Z.pow_pos_nonneg; lia).
    set (m := rne_div (a * 2 ^ k) b).
    assert ((c - 1) * 2 ^ k < m ≤ c * 2 ^ k) as Hm.
    { split.
      - apply rne_div_above; [lia |]. nia.
      - apply rne_div_below; [lia |]. nia. }
    eexists. split; [reflexivity |]. unfold ceil, fst, snd.
    destruct (Z.leb_spec 0 sh); [lia |].
    fold k. rewrite Z.mul_1_l.
    rewrite (ceil_scaled m k c); [done | lia | done].
Qed.

Example ceil_25_10 : rbind (int_true_div 25 10) (λ f, Ok (ceil f)) = Ok 3.
Proof. reflexivity. Qed.

Example ceil_one_third : rbind (int_true_div 1 3) (λ f, Ok (ceil f)) = Ok 1.
Proof. reflexivity. Qed.

Example ceil_above_2_53 :
  rbind (int_true_div (2 ^ 53 + 1) 1) (λ f, Ok (ceil f)) = Ok (2 ^ 53).
Proof. reflexivity. Qed.

Example quotient_underflows :
  rbind (int_true_div 1 (2 ^ 1075)) (λ f, Ok (ceil f)) = Ok 0.
Proof. vm_compute. reflexivity. Qed.

(* ===================================================================== *)
(** ** Properties of pagination.py                                        *)
(* ===================================================================== *)

Lemma as_int_raises v e : as_int v = Raise e → e = TypeError.
Proof. destruct v; simpl; congruence. Qed.

Lemma as_int_truthy_nonzero v z : truthy v = true → as_int v = Ok z → z ≠ 0.
Proof.
  destruct v as [| [] | n | |]; simpl; try done.
  - intros _ [= <-]. done.
  - intros Hn [= <-]. by destruct (Z.eqb_spec n 0).
Qed.

Lemma py_or_truthy v d : truthy d = true → truthy (py_or v d) = true.
Proof. intros Hd. unfold py_or. by destruct (truthy v) eqn:Hv. Qed.

Lemma py_or_idempotent v d : py_or (py_or v d) d = py_or v d.
Proof.
  unfold py_or. destruct (truthy v) eqn:Hv; [by rewrite Hv |].
  by destruct (truthy d).
Qed.

Lemma int_true_div_raises a b e :
  int_true_div a b = Raise e → (b = 0 ∧ e = ZeroDivisionError) ∨ (b ≠ 0 ∧ e = OverflowError).
Proof.
  unfold int_true_div.
  destruct (Z.eqb_spec b 0) as [-> | Hb]; [intros [= <-]; by left |].
  destruct (a =? 0); [done |].
  destruct (float_ge_2_1024 _); [| done].
  intros [= <-]. by right.
Qed.

Section PaginationFacts.
Context (B : Backend).

(** The window of a numeric [page] and [size]. *)
Lemma get_paginated_queryset_numbers (queryset : Query) (page size : pyval) (p n : Z)
    (s : state) :
  as_int page = Ok p → as_int size = Ok n →
  get_paginated_queryset B queryset page size s = (Ok (page_window queryset p n), s).
Proof.
  unfold page_window.
  destruct page as [| [] | p' | |]; simpl; try done; intros [= <-];
    destruct size as [| [] | n' | |]; simpl; try done; intros [= <-];
    unfold get_paginated_queryset, limit, offset, call, bind, lift, ret; simpl;
    repeat f_equal; lia.
Qed.

(** [get_paginated_data] for a numeric [page] and [size], one outcome per
    place where a collaborator or the division can stop it. *)
Lemma get_paginated_data_run (query : Query) (S : Schema B) (s : state) (page size : Z) :
  as_int (py_or (dict_get (mapping s) "page") (PInt 1)) = Ok page →
  as_int (py_or (dict_get (mapping s) "size") (PInt 10)) = Ok size →
  get_paginated_data B query S s =
  match schema_error B S with
  | Some what => (Raise (CollaboratorError what), s)
  | None =>
    match run_count B query with
    | Fails what =>
        (Raise (CollaboratorError what),
         {| mapping := mapping s; executed := executed s ++ [ExecCount query] |})
    | Returns total =>
      match int_true_div total size with
      | Raise e =>
          (Raise e, {| mapping := mapping s; executed := executed s ++ [ExecCount query] |})
      | Ok quotient =>
        match run_all B (page_window query page size) with
        | Fails what =>
            (Raise (CollaboratorError what),
             {| mapping := mapping s;
                executed := executed s ++
                              [ExecCount query; ExecAll (page_window query page size)] |})
        | Returns rows =>
            (of_answer
               (dump B S
                  {| items := rows;
                     total_count := total;
                     total_page := ceil quotient;
                     current_page := page;
                     has_next := page <? ceil quotient;
                     has_prev := 1 <? page |}),
             {| mapping := mapping s;
                executed := executed s ++
                              [ExecCount query; ExecAll (page_window query page size)] |})
        end
      end
    end
  end.
Proof.
  intros Hpage Hsize. unfold get_paginated_data.
  unfold bind at 1. unfold get at 1. unfold bind at 1. unfold get at 1.
  unfold bind at 1.
  rewrite (get_paginated_queryset_numbers query _ _ page size s Hpage Hsize).
  unfold call, bind, lift, count, all, py_truediv_int, py_lt_int, py_gt_int, of_answer.
  rewrite Hpage, Hsize. simpl.
  destruct (schema_error B S) as [what |]; simpl; [done |].
  destruct (run_count B query) as [total | what]; simpl; [| done].
  destruct (int_true_div total size) as [quotient | e]; simpl; [| done].
  rewrite <- app_assoc. simpl.
  destruct (run_all B (page_window query page size)) as [rows | what]; simpl; [| done].
  by destruct (dump B S _).
Qed.

(** Building the window sends nothing and leaves the state alone; what
    it returns does not depend on the state. *)
Lemma get_paginated_queryset_pure (queryset : Query) (page size : pyval) (s : state) :
  (get_paginated_queryset B queryset page size s).2 = s ∧
  ∀ s', (get_paginated_queryset B queryset page size s).1 =
        (get_paginated_queryset B queryset page size s').1.
Proof.
  unfold get_paginated_queryset, limit, offset, call, bind, lift, ret.
  destruct (of_answer (sql_asint B size)) as [n | e]; [| done].
  destruct (py_sub page (PInt 1)) as [previous | e]; [| done].
  destruct (py_mul previous size) as [start | e]; [| done].
  by destruct (of_answer (sql_asint B start)) as [m | e].
Qed.

(** A run of [get_paginated_data], statement by statement. *)
Lemma get_paginated_data_steps (query : Query) (S : Schema B) (s : state) :
  get_paginated_data B query S s =
  let page := py_or (dict_get (mapping s) "page") (PInt 1) in
  let size := py_or (dict_get (mapping s) "size") (PInt 10) in
  let counted := {| mapping := mapping s; executed := executed s ++ [ExecCount query] |} in
  match (get_paginated_queryset B query page size s).1 with
  | Raise e => (Raise e, s)
  | Ok window =>
    let fetched :=
      {| mapping := mapping s;
         executed := executed s ++ [ExecCount query; ExecAll window] |} in
    match schema_error B S with
    | Some what => (Raise (CollaboratorError what), s)
    | None =>
      match run_count B query with
      | Fails what => (Raise (CollaboratorError what), counted)
      | Returns total =>
        match py_truediv_int total size with
        | Raise e => (Raise e, counted)
        | Ok quotient =>
          match py_lt_int page (ceil quotient) with
          | Raise e => (Raise e, counted)
          | Ok next =>
            match py_gt_int page 1 with
            | Raise e => (Raise e, counted)
            | Ok prev =>
              match run_all B window with
              | Fails what => (Raise (CollaboratorError what), fetched)
              | Returns rows =>
                match as_int page with
                | Raise e => (Raise e, fetched)
                | Ok current =>
                    (of_answer
                       (dump B S
                          {| items := rows;
                             total_count := total;
                             total_page := ceil quotient;
                             current_page := current;
                             has_next := next;
                             has_prev := prev |}),
                     fetched)
                end
              end
            end
          end
        end
      end
    end
  end.
Proof.
  cbv zeta. unfold get_paginated_data.
  unfold bind at 1. unfold get at 1. unfold bind at 1. unfold get at 1.
  unfold bind at 1.
  destruct (get_paginated_queryset_pure query
              (py_or (dict_get (mapping s) "page") (PInt 1))
              (py_or (dict_get (mapping s) "size") (PInt 10)) s) as [Hstate _].
  destruct (get_paginated_queryset B query _ _ s) as [[window | e] s1];
    simpl in Hstate; subst s1; [| done].
  cbn [fst].
  unfold call, bind, lift, count, all.
  destruct (schema_error B S) as [what |]; [done |]. cbn [of_answer].
  destruct (run_count B query) as [total | what]; [| done]. cbn [of_answer].
  destruct (py_truediv_int total _) as [quotient | e]; [| done].
  destruct (py_lt_int _ _) as [next | e]; [| done].
  destruct (py_gt_int _ _) as [prev | e]; [| done].
  cbn [mapping executed]. rewrite <- app_assoc. cbn [app].
  destruct (run_all B window) as [rows | what]; [| done]. cbn [of_answer].
  destruct (as_int _) as [current | e]; [| done].
  by destruct (dump B S _).
Qed.

(** The dictionary is only read. *)
Lemma get_paginated_data_mapping (query : Query) (S : Schema B) (s : state) :
  mapping (get_paginated_data B query S s).2 = mapping s.
Proof.
  rewrite get_paginated_data_steps. cbv zeta.
  repeat match goal with
         | |- context [match ?x with _ => _ end] => destruct x
         end; done.
Qed.

(** The run depends on the state through the defaulted [page] and
    [size] and the requests already sent. *)
Lemma get_paginated_data_depends (query : Query) (S : Schema B) (s s' : state) :
  py_or (dict_get (mapping s) "page") (PInt 1) =
    py_or (dict_get (mapping s') "page") (PInt 1) →
  py_or (dict_get (mapping s) "size") (PInt 10) =
    py_or (dict_get (mapping s') "size") (PInt 10) →
  executed s = executed s' →
  (get_paginated_data B query S s).1 = (get_paginated_data B query S s').1 ∧
  executed (get_paginated_data B query S s).2 =
    executed (get_paginated_data B query S s').2.
Proof.
  intros Hpage Hsize Hsent.
  rewrite !get_paginated_data_steps. cbv zeta.
  rewrite <- Hpage, <- Hsize, <- Hsent.
  destruct (get_paginated_queryset_pure query
              (py_or (dict_get (mapping s) "page") (PInt 1))
              (py_or (dict_get (mapping s) "size") (PInt 10)) s) as [_ Hsame].
  rewrite <- (Hsame s').
  repeat match goal with
         | |- context [match ?x with _ => _ end] => destruct x
         end; done.
Qed.

Lemma get_paginated_queryset_raise_kind (queryset : Query) (page size : pyval) (s : state) e :
  (get_paginated_queryset B queryset page size s).1 = Raise e →
  e = TypeError ∨ ∃ what, e = CollaboratorError what.
Proof.
  unfold get_paginated_queryset, limit, offset, call, bind, lift, ret.
  destruct (sql_asint B size) as [n | what]; simpl; [| intros [= <-]; eauto].
  unfold py_sub, py_mul. simpl.
  destruct (as_int page) as [p | e1] eqn:Hp; simpl.
  2: { apply as_int_raises in Hp as ->. intros [= <-]. by left. }
  destruct (py_mul_int (p - 1) size) as [start | e2] eqn:Hmul; simpl.
  2: { destruct size; simpl in Hmul; try done. injection Hmul as <-. intros [= <-]. by left. }
  destruct (sql_asint B start) as [m | what]; simpl; [done | intros [= <-]; eauto].
Qed.

(** What a run can raise. *)
Lemma get_paginated_data_raise_kind (query : Query) (S : Schema B) (s : state) e :
  (get_paginated_data B query S s).1 = Raise e →
  e = TypeError ∨ e = OverflowError ∨ ∃ what, e = CollaboratorError what.
Proof.
  assert (truthy (py_or (dict_get (mapping s) "size") (PInt 10)) = true) as Htruthy
    by by apply py_or_truthy.
  rewrite get_paginated_data_steps. cbv zeta.
  destruct (get_paginated_queryset B query _ _ s).1 as [window | e0] eqn:Hwindow.
  2: { intros [= <-].
       destruct (get_paginated_queryset_raise_kind _ _ _ _ _ Hwindow) as [-> | ?]; eauto. }
  destruct (schema_error B S) as [what |]; [intros [= <-]; eauto |].
  destruct (run_count B query) as [total | what]; [| intros [= <-]; eauto].
  unfold py_truediv_int, py_lt_int, py_gt_int.
  destruct (as_int (py_or (dict_get (mapping s) "size") (PInt 10))) as [n | e1] eqn:Hn;
    simpl.
  2: { apply as_int_raises in Hn as ->. intros [= <-]. by left. }
  destruct (int_true_div total n) as [quotient | e2] eqn:Hdiv.
  2: { intros [= <-]. apply int_true_div_raises in Hdiv as [[Hzero _] | [_ ->]]; [| by eauto].
       by destruct (as_int_truthy_nonzero _ _ Htruthy Hn). }
  destruct (as_int (py_or (dict_get (mapping s) "page") (PInt 1))) as [p | e3] eqn:Hp;
    simpl.
  2: { apply as_int_raises in Hp as ->. intros [= <-]. by left. }
  destruct (run_all B window) as [rows | what]; [| intros [= <-]; eauto].
  destruct (dump B S _) as [rendered | what]; simpl; [done | intros [= <-]; eauto].
Qed.

(** The divisor is a truthy value, hence never zero. *)
Lemma get_paginated_data_never_divides_by_zero (query : Query) (S : Schema B) (s : state) :
  (get_paginated_data B query S s).1 ≠ Raise ZeroDivisionError.
Proof.
  intros Hraise.
  by destruct (get_paginated_data_raise_kind _ _ _ _ Hraise) as [? | [? | [? ?]]].
Qed.
(** C8: for [page >= 1] and [size >= 1], [get_paginated_queryset]
    returns the query it was given under [limit(size)] and then
    [offset((page - 1) * size)], a non-negative offset; it leaves the
    dictionary alone and sends nothing to the database: the trace of
    executed requests is the one it started with. *)
Theorem get_paginated_queryset_window (queryset : Query) (page size : Z) (s : state) :
  1 ≤ page → 1 ≤ size →
  get_paginated_queryset B queryset (PInt page) (PInt size) s =
    (Ok (Offset (Limit queryset size) ((page - 1) * size)), s) ∧
  executed (get_paginated_queryset B queryset (PInt page) (PInt size) s).2 = executed s ∧
  0 ≤ (page - 1) * size.
Proof.
  intros Hpage Hsize.
  rewrite (get_paginated_queryset_numbers queryset (PInt page) (PInt size) page size s)
    by done.
  repeat split. nia.
Qed.

(** C5 (amended): for [0 <= total_count < 2^53], [page >= 1] and
    [1 <= size < 2^1075], the page handed to the schema has
    [total_page = ceil(total_count / size)], that is the least [n] with
    [total_count <= n * size], [has_next = (page < total_page)] and
    [has_prev = (page > 1)]; with [total_count = 0] this gives
    [total_page = 0], no next page, and no previous page on page 1.
    Here the schema is instantiated, the count answers [total] and the
    fetch of the window answers [rows]; the call returns what [dump]
    makes of the page. *)
Theorem get_paginated_data_metadata
    (query : Query) (S : Schema B) (s : state) (page size total : Z) (rows : list (Row B)) :
  mapping s !! "page" = Some (PInt page) →
  mapping s !! "size" = Some (PInt size) →
  schema_error B S = None →
  run_count B query = Returns total →
  run_all B (page_window query page size) = Returns rows →
  0 ≤ total < 2 ^ 53 → 1 ≤ page → 1 ≤ size < 2 ^ 1075 →
  ∃ pages,
    get_paginated_data B query S s =
      (of_answer
         (dump B S
            {| items := rows;
               total_count := total;
               total_page := pages;
               current_page := page;
               has_next := page <? pages;
               has_prev := 1 <? page |}),
       {| mapping := mapping s;
          executed := executed s ++ [ExecCount query; ExecAll (page_window query page size)] |}) ∧
    (pages - 1) * size < total ≤ pages * size ∧
    (total = 0 →
     pages = 0 ∧ (page <? pages) = false ∧ (page = 1 → (1 <? page) = false)).
Proof.
  intros Hpage Hsize Hschema Hcount Hrows Htotal Hp Hs.
  destruct (int_true_div_ceil total size Htotal Hs) as [f [Hdiv Hceil]].
  exists (ceil f).
  rewrite (get_paginated_data_run query S s page size).
  - rewrite Hschema, Hcount, Hdiv, Hrows. split; [done |]. split; [done |].
    intros Hzero. rewrite Hzero in Hceil.
    assert (ceil f = 0) as -> by nia.
    split; [done |]. split; [| by intros ->].
    destruct (Z.ltb_spec page 0); [lia | done].
  - unfold dict_get, py_or. rewrite Hpage. simpl.
    by destruct (Z.eqb_spec page 0) as [? | _]; [lia |].
  - unfold dict_get, py_or. rewrite Hsize. simpl.
    by destruct (Z.eqb_spec size 0) as [? | _]; [lia |].
Qed.

(** C2 (amended): a [size] of 0 raises nothing of its own; being falsy it
    is replaced by the default, and the call has the outcome and sends
    the requests of the same call with [size = 10]. The dictionary keeps
    its 0, and the outcome is not a [ZeroDivisionError]. *)
Theorem get_paginated_data_size_zero (query : Query) (S : Schema B) (s : state) :
  mapping s !! "size" = Some (PInt 0) →
  (get_paginated_data B query S s).1 =
    (get_paginated_data B query S (with_mapping (<["size" := PInt 10]> (mapping s)) s)).1 ∧
  executed (get_paginated_data B query S s).2 =
    executed (get_paginated_data B query S
                (with_mapping (<["size" := PInt 10]> (mapping s)) s)).2 ∧
  mapping (get_paginated_data B query S s).2 = mapping s ∧
  (get_paginated_data B query S s).1 ≠ Raise ZeroDivisionError.
Proof.
  intros Hsize.
  destruct (get_paginated_data_depends query S s
              (with_mapping (<["size" := PInt 10]> (mapping s)) s)) as [Hout Hsent].
  - unfold with_mapping, dict_get. simpl. by rewrite lookup_insert_ne.
  - unfold with_mapping, dict_get. simpl. by rewrite lookup_insert_eq, Hsize.
  - done.
  - split; [done |]. split; [done |].
    split; [apply get_paginated_data_mapping |].
    apply get_paginated_data_never_divides_by_zero.
Qed.

(** C10: [get_paginated_data] reads [page] and [size] with [get] and
    leaves the dictionary exactly as it found it, whatever the outcome; a
    falsy or missing [page] counts as 1 and a falsy or missing [size] as
    10. [get_page_args], which pops, changes a dictionary that has a
    [page]. *)
Theorem get_paginated_data_keeps_page_args (query : Query) (S : Schema B) (s : state) :
  mapping (get_paginated_data B query S s).2 = mapping s ∧
  (truthy (dict_get (mapping s) "page") = false →
   (get_paginated_data B query S s).1 =
     (get_paginated_data B query S (with_mapping (<["page" := PInt 1]> (mapping s)) s)).1) ∧
  (truthy (dict_get (mapping s) "size") = false →
   (get_paginated_data B query S s).1 =
     (get_paginated_data B query S (with_mapping (<["size" := PInt 10]> (mapping s)) s)).1) ∧
  (is_Some (mapping s !! "page") → mapping (get_page_args s).2 ≠ mapping s).
Proof.
  split; [apply get_paginated_data_mapping |]. split; [| split].
  - intros Hfalsy.
    apply (get_paginated_data_depends query S s
             (with_mapping (<["page" := PInt 1]> (mapping s)) s)); [| | done].
    + unfold with_mapping, dict_get in *. simpl. rewrite lookup_insert_eq.
      unfold py_or at 1. by rewrite Hfalsy.
    + unfold with_mapping, dict_get. simpl. by rewrite lookup_insert_ne.
  - intros Hfalsy.
    apply (get_paginated_data_depends query S s
             (with_mapping (<["size" := PInt 10]> (mapping s)) s)); [| | done].
    + unfold with_mapping, dict_get. simpl. by rewrite lookup_insert_ne.
    + unfold with_mapping, dict_get in *. simpl. rewrite lookup_insert_eq.
      unfold py_or at 1. by rewrite Hfalsy.
  - intros [v Hv] Heq.
    assert (mapping (get_page_args s).2 !! "page" = None) as Hgone.
    { unfold get_page_args, bind, pop, ret. rewrite Hv. simpl.
      rewrite lookup_delete_ne by done.
      destruct (mapping s !! "size"); simpl; [| by rewrite lookup_delete_eq].
      by rewrite lookup_delete_ne, lookup_delete_eq. }
    rewrite Heq, Hv in Hgone. done.
Qed.
End PaginationFacts.

(** *** [get_page_args] *)

Lemma get_page_args_run (s : state) :
  get_page_args s =
  match mapping s !! "page" with
  | None => (Raise (KeyError "page"), s)
  | Some page =>
    match mapping s !! "size" with
    | None => (Raise (KeyError "size"), with_mapping (delete "page" (mapping s)) s)
    | Some size =>
        (Ok (<["page" := py_or page (PInt 1)]> (<["size" := py_or size (PInt 10)]> ∅)),
         with_mapping (delete "size" (delete "page" (mapping s))) s)
    end
  end.
Proof.
  unfold get_page_args, bind, pop, ret, with_mapping.
  destruct (mapping s !! "page") as [page |]; [| done]. simpl.
  rewrite lookup_delete_ne by done.
  by destruct (mapping s !! "size") as [size |].
Qed.

(** C3: on the empty dictionary [get_page_args] does not return
    [{page: 1, size: 10}]: [args.pop('page')] has no default and raises
    [KeyError], before any of the [or] defaults is reached. *)
Theorem get_page_args_empty_raises :
  get_page_args (called_with ∅) = (Raise (KeyError "page"), called_with ∅).
Proof. reflexivity. Qed.

(** C9: [get_page_args] touches no key other than [page] and [size], and
    sends nothing to the database; on a dictionary that has both keys it
    returns a new dictionary with their values (a falsy one replaced by 1,
    respectively 10) and leaves the caller's dictionary without [page]
    and [size] and with every other entry as it was. It returns only when
    it has removed both keys. *)
Theorem get_page_args_removes_page_and_size (s : state) :
  (∀ key, key ≠ "page" → key ≠ "size" →
     mapping (get_page_args s).2 !! key = mapping s !! key) ∧
  executed (get_page_args s).2 = executed s ∧
  (∀ page size,
     mapping s !! "page" = Some page → mapping s !! "size" = Some size →
     get_page_args s =
       (Ok (<["page" := py_or page (PInt 1)]> (<["size" := py_or size (PInt 10)]> ∅)),
        with_mapping (delete "size" (delete "page" (mapping s))) s) ∧
     mapping (get_page_args s).2 !! "page" = None ∧
     mapping (get_page_args s).2 !! "size" = None) ∧
  (∀ returned, (get_page_args s).1 = Ok returned →
     mapping (get_page_args s).2 = delete "size" (delete "page" (mapping s)) ∧
     is_Some (mapping s !! "page") ∧ is_Some (mapping s !! "size")).
Proof.
  rewrite get_page_args_run.
  destruct (mapping s !! "page") as [page |] eqn:Hpage;
    [destruct (mapping s !! "size") as [size |] eqn:Hsize |]; simpl.
  - split; [intros key ? ?; by rewrite !lookup_delete_ne |].
    split; [done |]. split.
    + intros p z [= <-] [= <-]. split; [done |].
      split; [by rewrite lookup_delete_ne, lookup_delete_eq | by rewrite lookup_delete_eq].
    + intros returned _. eauto.
  - split; [intros key ? ?; by rewrite lookup_delete_ne |].
    split; [done |]. split; [intros p z _ [=] | intros returned [=]].
  - split; [done |]. split; [done |].
    split; [intros p z [=] | intros returned [=]].
Qed.

(** *** Evaluation on sample requests *)

Example page_1_of_25 :
  (get_paginated_data (fixed_backend 25 [1; 2; 3; 4; 5; 6; 7; 8; 9; 10]) users ()
     (called_with {["page" := PInt 1; "size" := PInt 10]})) =
  (Ok {| items := [1; 2; 3; 4; 5; 6; 7; 8; 9; 10]; total_count := 25; total_page := 3;
         current_page := 1; has_next := true; has_prev := false |},
   {| mapping := {["page" := PInt 1; "size" := PInt 10]};
      executed := [ExecCount users; ExecAll (Offset (Limit users 10) 0)] |}).
Proof. reflexivity. Qed.

Example page_3_of_25 :
  (get_paginated_data (fixed_backend 25 [21; 22; 23; 24; 25]) users ()
     (called_with {["page" := PInt 3; "size" := PInt 10]})).1 =
  Ok {| items := [21; 22; 23; 24; 25]; total_count := 25; total_page := 3;
        current_page := 3; has_next := false; has_prev := true |}.
Proof. reflexivity. Qed.

Example page_of_nothing :
  (get_paginated_data (fixed_backend 0 []) users () (called_with ∅)).1 =
  Ok {| items := []; total_count := 0; total_page := 0;
        current_page := 1; has_next := false; has_prev := false |}.
Proof. reflexivity. Qed.

(** A [size] given as the string ['5']: [limit] takes it through
    [int()]; on page 2 the offset ['5'] is accepted too, the count is
    sent, and the division raises. *)
Example string_size_on_page_2 :
  get_paginated_data (fixed_backend 25 [1]) users ()
    (called_with {["page" := PInt 2; "size" := PStr "5"]}) =
  (Raise TypeError,
   {| mapping := {["page" := PInt 2; "size" := PStr "5"]};
      executed := [ExecCount users] |}).
Proof. reflexivity. Qed.

(** On page 1 the offset is the empty string, which [int()] refuses
    inside [offset], before anything is sent. *)
Example string_size_on_page_1 :
  get_paginated_data (fixed_backend 25 [1]) users ()
    (called_with {["page" := PInt 1; "size" := PStr "5"]}) =
  (Raise (CollaboratorError "ValueError"),
   {| mapping := {["page" := PInt 1; "size" := PStr "5"]}; executed := [] |}).
Proof. reflexivity. Qed.

Example string_page :
  get_paginated_data (fixed_backend 25 [1]) users ()
    (called_with {["page" := PStr "x"; "size" := PInt 5]}) =
  (Raise TypeError,
   {| mapping := {["page" := PStr "x"; "size" := PInt 5]}; executed := [] |}).
Proof. reflexivity. Qed.

Example fetch_fails_after_the_count :
  get_paginated_data (failing_fetch 25) users ()
    (called_with {["page" := PInt 1; "size" := PInt 5]}) =
  (Raise (CollaboratorError "OperationalError"),
   {| mapping := {["page" := PInt 1; "size" := PInt 5]};
      executed := [ExecCount users; ExecAll (Offset (Limit users 5) 0)] |}).
Proof. reflexivity. Qed.

Example page_missing_keeps_size :
  get_page_args (called_with {["size" := PInt 20; "q" := PStr "x"]}) =
  (Raise (KeyError "page"), called_with {["size" := PInt 20; "q" := PStr "x"]}).
Proof. reflexivity. Qed.

Example size_missing_loses_page :
  get_page_args (called_with {["page" := PInt 2; "q" := PStr "x"]}) =
  (Raise (KeyError "size"), called_with {["q" := PStr "x"]}).
Proof. reflexivity. Qed.

Lemma get_paginated_queryset_window_witness :
  get_paginated_queryset (fixed_backend 25 []) users (PInt 3) (PInt 10) (called_with ∅) =
    (Ok (Offset (Limit users 10) ((3 - 1) * 10)), called_with ∅) ∧
  executed (get_paginated_queryset (fixed_backend 25 []) users (PInt 3) (PInt 10)
              (called_with ∅)).2 = [] ∧
  0 ≤ (3 - 1) * 10.
Proof.
  apply (get_paginated_queryset_window (fixed_backend 25 []) users 3 10 (called_with ∅));
    lia.
Defined.

Lemma get_paginated_data_metadata_witness :
  ∃ pages,
    get_paginated_data (fixed_backend 25 [21; 22; 23; 24; 25]) users ()
      (called_with {["page" := PInt 3; "size" := PInt 10]}) =
      (Ok {| items := [21; 22; 23; 24; 25]; total_count := 25; total_page := pages;
             current_page := 3; has_next := 3 <? pages; has_prev := 1 <? 3 |},
       {| mapping := {["page" := PInt 3; "size" := PInt 10]};
          executed := [] ++ [ExecCount users; ExecAll (page_window users 3 10)] |}) ∧
    (pages - 1) * 10 < 25 ≤ pages * 10 ∧
    (25 = 0 → pages = 0 ∧ (3 <? pages) = false ∧ (3 = 1 → (1 <? 3) = false)).
Proof.
  refine (get_paginated_data_metadata (fixed_backend 25 [21; 22; 23; 24; 25]) users ()
            (called_with {["page" := PInt 3; "size" := PInt 10]}) 3 10 25
            [21; 22; 23; 24; 25] _ _ _ _ _ _ _ _).
  - reflexivity.
  - reflexivity.
  - reflexivity.
  - reflexivity.
  - reflexivity.
  - lia.
  - lia.
  - lia.
Defined.

(** C5, as stated, fails once the quotient needs more than 53 bits: with
    [2^53 + 1] rows and pages of one row, the quotient is rounded to
    [2^53], so [total_page] is one short of the number of pages and page
    [2^53] is told that no page follows. *)
Lemma total_page_is_rounded :
  (get_paginated_data (fixed_backend (2 ^ 53 + 1) [2 ^ 53]) users ()
     (called_with {["page" := PInt (2 ^ 53); "size" := PInt 1]})).1 =
    Ok {| items := [2 ^ 53]; total_count := 2 ^ 53 + 1; total_page := 2 ^ 53;
          current_page := 2 ^ 53; has_next := false; has_prev := true |} ∧
  ¬ (2 ^ 53 + 1 ≤ 2 ^ 53 * 1).
Proof. split; [reflexivity | lia]. Qed.

Lemma get_paginated_data_size_zero_witness :
  (get_paginated_data (fixed_backend 25 [1; 2; 3]) users ()
     (called_with {["page" := PInt 1; "size" := PInt 0]})).1 =
    (get_paginated_data (fixed_backend 25 [1; 2; 3]) users ()
       (with_mapping (<["size" := PInt 10]> {["page" := PInt 1; "size" := PInt 0]})
          (called_with {["page" := PInt 1; "size" := PInt 0]}))).1 ∧
  executed (get_paginated_data (fixed_backend 25 [1; 2; 3]) users ()
              (called_with {["page" := PInt 1; "size" := PInt 0]})).2 =
    executed (get_paginated_data (fixed_backend 25 [1; 2; 3]) users ()
                (with_mapping (<["size" := PInt 10]> {["page" := PInt 1; "size" := PInt 0]})
                   (called_with {["page" := PInt 1; "size" := PInt 0]}))).2 ∧
  mapping (get_paginated_data (fixed_backend 25 [1; 2; 3]) users ()
             (called_with {["page" := PInt 1; "size" := PInt 0]})).2 =
    {["page" := PInt 1; "size" := PInt 0]} ∧
  (get_paginated_data (fixed_backend 25 [1; 2; 3]) users ()
     (called_with {["page" := PInt 1; "size" := PInt 0]})).1 ≠ Raise ZeroDivisionError.
Proof.
  refine (get_paginated_data_size_zero (fixed_backend 25 [1; 2; 3]) users ()
            (called_with {["page" := PInt 1; "size" := PInt 0]}) _).
  reflexivity.
Defined.

(** C2, as stated, fails: called with [size = 0], [get_paginated_data]
    raises nothing and returns the first page of ten, 25 rows making
    three pages. *)
Lemma size_zero_returns_a_page :
  (get_paginated_data (fixed_backend 25 [1; 2; 3; 4; 5; 6; 7; 8; 9; 10]) users ()
     (called_with {["page" := PInt 1; "size" := PInt 0]})) =
    (Ok {| items := [1; 2; 3; 4; 5; 6; 7; 8; 9; 10]; total_count := 25; total_page := 3;
           current_page := 1; has_next := true; has_prev := false |},
     {| mapping := {["page" := PInt 1; "size" := PInt 0]};
        executed := [ExecCount users; ExecAll (Offset (Limit users 10) 0)] |}) ∧
  raises (get_paginated_data (fixed_backend 25 [1; 2; 3; 4; 5; 6; 7; 8; 9; 10]) users ()
            (called_with {["page" := PInt 1; "size" := PInt 0]})).1 = false.
Proof. split; reflexivity. Qed.

Lemma get_page_args_removes_page_and_size_witness :
  get_page_args (called_with {["page" := PInt 2; "size" := PInt 20; "q" := PStr "x"]}) =
    (Ok {["page" := PInt 2; "size" := PInt 20]}, called_with {["q" := PStr "x"]}) ∧
  mapping (get_page_args
             (called_with {["page" := PInt 2; "size" := PInt 20; "q" := PStr "x"]})).2
    !! "q" = Some (PStr "x").
Proof.
  pose proof (get_page_args_removes_page_and_size
                (called_with {["page" := PInt 2; "size" := PInt 20; "q" := PStr "x"]}))
    as (Hframe & _ & Hboth & _).
  split.
  - apply (Hboth (PInt 2) (PInt 20)); reflexivity.
  - rewrite Hframe by discriminate. reflexivity.
Defined.

Lemma get_paginated_data_keeps_page_args_witness :
  mapping (get_paginated_data (fixed_backend 25 [1; 2; 3]) users ()
             (called_with {["size" := PInt 0]})).2 = {["size" := PInt 0]} ∧
  (get_paginated_data (fixed_backend 25 [1; 2; 3]) users ()
     (called_with {["size" := PInt 0]})).1 =
    (get_paginated_data (fixed_backend 25 [1; 2; 3]) users ()
       (with_mapping (<["page" := PInt 1]> {["size" := PInt 0]})
          (called_with {["size" := PInt 0]}))).1 ∧
  (get_paginated_data (fixed_backend 25 [1; 2; 3]) users ()
     (called_with {["size" := PInt 0]})).1 =
    (get_paginated_data (fixed_backend 25 [1; 2; 3]) users ()
       (with_mapping (<["size" := PInt 10]> {["size" := PInt 0]})
          (called_with {["size" := PInt 0]}))).1 ∧
  mapping (get_page_args (called_with {["page" := PInt 2]})).2 ≠ {["page" := PInt 2]}.
Proof.
  pose proof (get_paginated_data_keeps_page_args (fixed_backend 25 [1; 2; 3]) users ()
                (called_with {["size" := PInt 0]})) as (Hsame & Hpage & Hsize & _).
  pose proof (get_paginated_data_keeps_page_args (fixed_backend 25 [1; 2; 3]) users ()
                (called_with {["page" := PInt 2]})) as (_ & _ & _ & Hpop).
  split; [exact Hsame |]. split; [apply Hpage; reflexivity |].
  split; [apply Hsize; reflexivity |].
  apply Hpop. by exists (PInt 2).
Defined.

(* ===================================================================== *)
(** ** Further properties of filter.py                                    *)
(* ===================================================================== *)

Section FilterMore.
Variable repr_str : string → string.
Variable operand_error : Pred → option string.

(** X1: a dict-valued entry whose argument [v] is present and truthy adds
    exactly one criterion, at the entry's place in the configuration:
    the expression [get_filter_arg] returns for the entry's field, [v]
    and its [look_up] (['eq'] when it has none), passed through the
    entry's wrapper when it has one and as it is otherwise. *)
Theorem get_filtered_query_dict_entry
    model args before key c after join_models ignore_deleted v raw P1 P2 :
  args !! key = Some v → truthy v = true →
  get_filter_arg repr_str operand_error (field c) v (default "eq" (look_up c)) = Ok raw →
  config_loop repr_str operand_error args before [] = Ok P1 →
  config_loop repr_str operand_error args after [] = Ok P2 →
  get_filtered_query repr_str operand_error model args
    (before ++ (key, CfgDict c) :: after) join_models ignore_deleted =
    Ok (Distinct
          (Filter (fold_left Join join_models (ModelQuery model))
                  (P1 ++ match wrapper c with
                         | Some w => w raw
                         | None => raw
                         end :: P2 ++ deleted_criterion model ignore_deleted))
          (Attr model "id")).
Proof.
  intros Hv Htrue Hraw Hbefore Hafter.
  rewrite get_filtered_query_unfold, config_loop_app, Hbefore. cbn [rbind].
  rewrite config_loop_acc, config_loop_cons. unfold entry_criteria. simpl fst. simpl snd.
  rewrite (dict_get_present _ _ _ Hv), Htrue. unfold lookup_of.
  rewrite Hraw, Hafter. cbn [rbind].
  by rewrite <- !app_assoc.
Qed.

(** *** Which arguments matter *)

Lemma or_loop_agree (args args' : gmap string pyval) key alternatives acc :
  args !! key = args' !! key ∨
  (truthy (dict_get args key) = false ∧ truthy (dict_get args' key) = false) →
  or_loop repr_str operand_error args key alternatives acc =
  or_loop repr_str operand_error args' key alternatives acc.
Proof.
  intros [Hsame | [Hfalse Hfalse']].
  - revert acc. induction alternatives as [| c cs IH]; intros acc; simpl; [done |].
    unfold dict_get, dict_subscript. rewrite <- Hsame.
    destruct (truthy (default PNone (args !! key))); simpl; [| apply IH].
    destruct (args !! key) as [v |]; simpl; [| done].
    destruct (get_filter_arg _ _ _ _ _); simpl; [apply IH | done].
  - by rewrite !or_loop_absent.
Qed.

Lemma config_loop_agree (args args' : gmap string pyval) config acc :
  Forall (λ item : string * ConfigValue,
            args !! item.1 = args' !! item.1 ∨
            (truthy (dict_get args item.1) = false ∧
             truthy (dict_get args' item.1) = false)) config →
  config_loop repr_str operand_error args config acc =
  config_loop repr_str operand_error args' config acc.
Proof.
  intros Hagree. revert acc.
  induction Hagree as [| [key value] rest Hkey _ IH]; intros acc; [done |].
  simpl in Hkey. destruct value as [c | cs |]; simpl; [| | apply IH].
  - destruct Hkey as [Hsame | [Hfalse Hfalse']].
    + unfold dict_get, dict_subscript. rewrite <- Hsame.
      destruct (truthy (default PNone (args !! key))); simpl; [| apply IH].
      destruct (args !! key) as [v |]; simpl; [| done].
      destruct (get_filter_arg _ _ _ _ _); simpl; [apply IH | done].
    + rewrite Hfalse, Hfalse'. simpl. apply IH.
  - rewrite (or_loop_agree args args' key cs [] Hkey).
    destruct (or_loop repr_str operand_error args' key cs []); simpl; [apply IH | done].
Qed.

(** X2: only the arguments under configured keys are read: two argument
    dictionaries that agree on every key of the configuration give the
    same query, or the same exception, whatever else they hold. *)
Theorem get_filtered_query_reads_configured_keys
    model (args args' : gmap string pyval) config join_models ignore_deleted :
  (∀ key value, (key, value) ∈ config → args !! key = args' !! key) →
  get_filtered_query repr_str operand_error model args config join_models ignore_deleted =
  get_filtered_query repr_str operand_error model args' config join_models ignore_deleted.
Proof.
  intros Hagree. rewrite !get_filtered_query_unfold.
  rewrite (config_loop_agree args args'); [done |].
  apply Forall_forall. intros [key value] Hin. left. by apply (Hagree key value).
Qed.

(** X3: a falsy argument is the same as no argument: passing [0],
    [False], [''], [[]] or [None] under a key gives the query that
    results when the key is left out, so no filter can be requested on
    such a value. *)
Theorem get_filtered_query_falsy_is_absent
    model (args : gmap string pyval) key v config join_models ignore_deleted :
  truthy v = false →
  get_filtered_query repr_str operand_error model (<[key := v]> args) config
    join_models ignore_deleted =
  get_filtered_query repr_str operand_error model (delete key args) config
    join_models ignore_deleted.
Proof.
  intros Hfalsy. rewrite !get_filtered_query_unfold.
  rewrite (config_loop_agree (<[key := v]> args) (delete key args)); [done |].
  apply Forall_forall. intros [k value] _. simpl.
  destruct (decide (key = k)) as [<- | Hne].
  - right. unfold dict_get. by rewrite lookup_insert_eq, lookup_delete_eq.
  - left. by rewrite lookup_insert_ne, lookup_delete_ne.
Qed.

(** *** When the call raises *)





Lemma entry_length (args : gmap string pyval) item added :
  entry_criteria repr_str operand_error args item = Ok added →
  length added = if contributes args item then 1%nat else 0%nat.
Proof.
  destruct item as [key value]. unfold entry_criteria, contributes. simpl fst. simpl snd.
  destruct value as [c | cs |].
  - destruct (truthy (dict_get args key)); [| by intros [= <-]].
    destruct (get_filter_arg _ _ _ _ _); simpl; [by intros [= <-] | done].
  - destruct (truthy (dict_get args key)); [| by intros [= <-]].
    destruct (clauses_for _ _ _ _); simpl; [by intros [= <-] | done].
  - by intros [= <-].
Qed.



Lemma config_loop_length (args : gmap string pyval) config built :
  config_loop repr_str operand_error args config [] = Ok built →
  length built = length (List.filter (contributes args) config).
Proof.
  revert built. induction config as [| item rest IH]; intros built.
  - by intros [= <-].
  - rewrite config_loop_cons.
    destruct (entry_criteria repr_str operand_error args item) as [head | e] eqn:Hhead;
      simpl; [| done].
    destruct (config_loop repr_str operand_error args rest []) as [tail | e]; simpl;
      [| done].
    intros [= <-]. rewrite length_app, (entry_length _ _ _ Hhead), (IH tail eq_refl).
    by destruct (contributes args item).
Qed.

Lemma get_filtered_query_ok model args config join_models ignore_deleted q :
  get_filtered_query repr_str operand_error model args config join_models ignore_deleted
    = Ok q ↔
  ∃ built, config_loop repr_str operand_error args config [] = Ok built ∧
           q = Distinct
                 (Filter (fold_left Join join_models (ModelQuery model))
                         (built ++ deleted_criterion model ignore_deleted))
                 (Attr model "id").
Proof.
  rewrite get_filtered_query_unfold.
  destruct (config_loop repr_str operand_error args config []) as [built | e]; simpl.
  - split; [intros [= <-]; eauto | by intros [? [[= <-] ->]]].
  - split; [done | by intros [? [? _]]].
Qed.

Lemma get_filtered_query_raise model args config join_models ignore_deleted e :
  get_filtered_query repr_str operand_error model args config join_models ignore_deleted
    = Raise e ↔
  config_loop repr_str operand_error args config [] = Raise e.
Proof.
  rewrite get_filtered_query_unfold.
  destruct (config_loop repr_str operand_error args config []) as [built | e']; simpl;
    [done |].
  split; by intros [= <-].
Qed.


(** X5: the joins and the soft-delete test do not interact with the
    field criteria. Whatever the call without joins and without
    [ignore_deleted] raises, every other call on the same arguments and
    configuration raises too; and when it returns criteria [cs] on
    [model.query], the call with [join_models] and [ignore_deleted]
    returns the same [cs] on [model.query] joined with each model in the
    given order, with [model.deleted == False] as the last criterion
    exactly if [ignore_deleted] is set, distinct on [model.id]. *)
Theorem get_filtered_query_joins_and_soft_delete
    model (args : gmap string pyval) config join_models ignore_deleted :
  (∀ e, get_filtered_query repr_str operand_error model args config [] false = Raise e →
        get_filtered_query repr_str operand_error model args config
          join_models ignore_deleted = Raise e) ∧
  (∀ q, get_filtered_query repr_str operand_error model args config [] false = Ok q →
        ∃ cs,
          q = Distinct (Filter (ModelQuery model) cs) (Attr model "id") ∧
          get_filtered_query repr_str operand_error model args config
            join_models ignore_deleted =
            Ok (Distinct
                  (Filter (fold_left Join join_models (ModelQuery model))
                          (cs ++ if ignore_deleted
                                 then [Compare OpEq (Attr model "deleted") (PBool false)]
                                 else []))
                  (Attr model "id"))).
Proof.
  split.
  - intros e. rewrite !get_filtered_query_raise. done.
  - intros q. rewrite get_filtered_query_ok. intros [built [Hbuilt ->]].
    exists built. split; [by rewrite app_nil_r |].
    apply get_filtered_query_ok. by exists built.
Qed.

(** X6: configurations compose. The criteria of [A ++ B] are those of
    [A] followed by those of [B] (then the soft-delete test); if [A]
    raises, [A ++ B] raises the same exception, and if [A] is accepted
    and [B] raises, [A ++ B] raises what [B] raises. *)
Theorem get_filtered_query_concat
    model (args : gmap string pyval) A B join_models ignore_deleted :
  (∀ e, get_filtered_query repr_str operand_error model args A join_models false = Raise e →
        get_filtered_query repr_str operand_error model args (A ++ B)
          join_models ignore_deleted = Raise e) ∧
  (∀ base1 PA on1,
     get_filtered_query repr_str operand_error model args A join_models false =
       Ok (Distinct (Filter base1 PA) on1) →
     (∀ e, get_filtered_query repr_str operand_error model args B join_models false
             = Raise e →
           get_filtered_query repr_str operand_error model args (A ++ B)
             join_models ignore_deleted = Raise e) ∧
     (∀ base2 PB on2,
        get_filtered_query repr_str operand_error model args B join_models false =
          Ok (Distinct (Filter base2 PB) on2) →
        get_filtered_query repr_str operand_error model args (A ++ B)
          join_models ignore_deleted =
          Ok (Distinct
                (Filter (fold_left Join join_models (ModelQuery model))
                        (PA ++ PB ++ deleted_criterion model ignore_deleted))
                (Attr model "id")))).
Proof.
  split.
  - intros e. rewrite !get_filtered_query_raise, config_loop_app. by intros ->.
  - intros base1 PA on1. rewrite get_filtered_query_ok.
    intros [builtA [HA [= -> HPA ->]]]. simpl in HPA. rewrite app_nil_r in HPA. subst PA.
    split.
    + intros e. rewrite !get_filtered_query_raise, config_loop_app, HA. cbn [rbind].
      intros HB. by rewrite config_loop_acc, HB.
    + intros base2 PB on2. rewrite get_filtered_query_ok.
      intros [builtB [HB [= -> HPB ->]]]. simpl in HPB. rewrite app_nil_r in HPB. subst PB.
      apply get_filtered_query_ok. exists (builtA ++ builtB).
      split; [| by rewrite <- app_assoc].
      rewrite config_loop_app, HA. cbn [rbind]. by rewrite config_loop_acc, HB.
Qed.

(** X7: every entry adds at most one element to the criteria: a
    list-valued entry always adds one (its OR), a dict-valued entry adds
    one exactly if its argument is truthy, any other entry adds none. A
    returned query is the joined base query under [filter] and
    [distinct(model.id)], with as many criteria as there are contributing
    entries, plus one when [ignore_deleted] is set. *)
Theorem get_filtered_query_counts
    model (args : gmap string pyval) config join_models ignore_deleted q :
  get_filtered_query repr_str operand_error model args config join_models ignore_deleted
    = Ok q →
  ∃ cs,
    q = Distinct (Filter (fold_left Join join_models (ModelQuery model)) cs)
                 (Attr model "id") ∧
    length cs =
      (length (List.filter (contributes args) config) +
       (if ignore_deleted then 1 else 0))%nat ∧
    (length cs ≤ length config + 1)%nat.
Proof.
  rewrite get_filtered_query_ok. intros [built [Hbuilt ->]].
  eexists. split; [done |].
  rewrite length_app, (config_loop_length _ _ _ Hbuilt).
  pose proof (List.filter_length_le (contributes args) config) as Hle.
  unfold deleted_criterion. destruct ignore_deleted; simpl; split; lia.
Qed.

(** X8: an entry whose value is neither a [dict] nor a [list] (a tuple of
    alternatives, say) is skipped without any error: the call behaves as
    if the entry were not in the configuration. *)
Theorem get_filtered_query_skips_other_values
    model (args : gmap string pyval) before key after join_models ignore_deleted :
  get_filtered_query repr_str operand_error model args
    (before ++ (key, CfgOther) :: after) join_models ignore_deleted =
  get_filtered_query repr_str operand_error model args (before ++ after)
    join_models ignore_deleted.
Proof.
  rewrite !get_filtered_query_unfold, !config_loop_app.
  by destruct (config_loop repr_str operand_error args before []).
Qed.

(** X9: the value is put into a pattern as it is; a [%] in it is not
    escaped. A value that begins with [%] under [istarts], or one that
    ends with [%] under [iends], therefore gives the very criterion that
    [ilike] gives for the rest of the value. *)
Theorem get_filter_arg_keeps_wildcards fld text :
  get_filter_arg repr_str operand_error fld (PStr ("%" +:+ text)) "istarts" =
    get_filter_arg repr_str operand_error fld (PStr text) "ilike" ∧
  get_filter_arg repr_str operand_error fld (PStr (text +:+ "%")) "iends" =
    get_filter_arg repr_str operand_error fld (PStr text) "ilike".
Proof. split; reflexivity. Qed.
End FilterMore.

(* ===================================================================== *)
(** ** Further properties of pagination.py                                *)
(* ===================================================================== *)

Lemma dict_get_page_args page size :
  dict_get (<["page" := page]> (<["size" := size]> ∅)) "page" = page ∧
  dict_get (<["page" := page]> (<["size" := size]> ∅)) "size" = size.
Proof.
  unfold dict_get. rewrite lookup_insert_eq.
  rewrite lookup_insert_ne by done. by rewrite lookup_insert_eq.
Qed.

Lemma delete_page_args (page size : pyval) :
  delete "size" (delete "page" (<["page" := page]> (<["size" := size]> ∅)))
  = (∅ : gmap string pyval).
Proof.
  apply map_eq. intros key. rewrite lookup_empty.
  destruct (decide (key = "size")) as [-> | Hsize]; [by rewrite lookup_delete_eq |].
  rewrite lookup_delete_ne by done.
  destruct (decide (key = "page")) as [-> | Hpage]; [by rewrite lookup_delete_eq |].
  rewrite lookup_delete_ne by done.
  by rewrite !lookup_insert_ne.
Qed.

Section PaginationMore.
Context (B : Backend).

(** X10: whatever [page_args] holds, [get_paginated_data] raises neither
    [KeyError] (a missing [page] or [size] is read with [get] and
    defaulted) nor [ZeroDivisionError] (a [size] of 0 is replaced by 10
    before it divides). *)
Theorem get_paginated_data_no_key_or_zero_division_error
    (query : Query) (S : Schema B) (s : state) :
  (∀ key, (get_paginated_data B query S s).1 ≠ Raise (KeyError key)) ∧
  (get_paginated_data B query S s).1 ≠ Raise ZeroDivisionError.
Proof.
  split; [| apply get_paginated_data_never_divides_by_zero].
  intros key Hraise.
  by destruct (get_paginated_data_raise_kind _ _ _ _ _ Hraise) as [? | [? | [? ?]]].
Qed.

(** X11: the requests sent to the database. A call that returns has
    sent exactly two, in this order: a count of the query as it was given
    (never of the window), then a fetch of the window
    [limit(size).offset((page - 1) * size)] for the defaulted [page] and
    [size], which are numbers. A call that raises has sent nothing (the
    window or the schema could not be made), or only the count (the
    count, the division or a comparison failed), or both requests; in
    the last case it is the fetch or [dump] that raised, an error of the
    collaborator. A fetch is never sent before the count. *)
Theorem get_paginated_data_requests (query : Query) (S : Schema B) (s : state) :
  (∀ rendered, (get_paginated_data B query S s).1 = Ok rendered →
     ∃ page size,
       as_int (py_or (dict_get (mapping s) "page") (PInt 1)) = Ok page ∧
       as_int (py_or (dict_get (mapping s) "size") (PInt 10)) = Ok size ∧
       executed (get_paginated_data B query S s).2 =
         executed s ++ [ExecCount query;
                        ExecAll (Offset (Limit query size) ((page - 1) * size))]) ∧
  (∀ e, (get_paginated_data B query S s).1 = Raise e →
     executed (get_paginated_data B query S s).2 = executed s ∨
     executed (get_paginated_data B query S s).2 = executed s ++ [ExecCount query] ∨
     ∃ window what,
       executed (get_paginated_data B query S s).2 =
         executed s ++ [ExecCount query; ExecAll window] ∧
       e = CollaboratorError what ∧
       (run_all B window = Fails what ∨
        ∃ page, dump B S page = Fails what)).
Proof.
  rewrite get_paginated_data_steps. cbv zeta.
  destruct (get_paginated_queryset B query _ _ s).1 as [window | e0] eqn:Hwindow;
    [| split; [done | by left]].
  destruct (schema_error B S) as [what |]; [split; [done | by left] |].
  destruct (run_count B query) as [total | what]; [| split; [done | right; by left]].
  unfold py_truediv_int, py_lt_int, py_gt_int.
  destruct (as_int (py_or (dict_get (mapping s) "size") (PInt 10))) as [size | e1] eqn:Hsize;
    cbn [rbind]; [| split; [done | right; by left]].
  destruct (int_true_div total size) as [quotient | e2];
    [| split; [done | right; by left]].
  destruct (as_int (py_or (dict_get (mapping s) "page") (PInt 1))) as [page | e3] eqn:Hpage;
    cbn [rbind]; [| split; [done | right; by left]].
  assert (window = Offset (Limit query size) ((page - 1) * size)) as ->.
  { rewrite (get_paginated_queryset_numbers B query _ _ page size s Hpage Hsize) in Hwindow.
    by injection Hwindow as <-. }
  destruct (run_all B _) as [rows | what] eqn:Hrows.
  2: { split; [done |]. intros e [= <-]. right. right. eexists _, what. eauto. }
  destruct (dump B S _) as [rendered | what] eqn:Hdump; simpl.
  - split; [| done]. intros _ _. by exists page, size.
  - split; [done |]. intros e [= <-]. right. right. eexists _, what. eauto.
Qed.

(** X12: for [0 <= total_count < 2^53], [page >= 1] and
    [1 <= size < 2^1075], [has_next] is true exactly when rows remain
    after this page's window, that is when [page * size < total_count];
    on a page past the last one the window starts at or after
    [total_count]. Here the schema is instantiated, the count answers
    [total] and the fetch of the window answers [rows]. *)
Theorem get_paginated_data_has_next
    (query : Query) (S : Schema B) (s : state) (page size total : Z) (rows : list (Row B)) :
  mapping s !! "page" = Some (PInt page) →
  mapping s !! "size" = Some (PInt size) →
  schema_error B S = None →
  run_count B query = Returns total →
  run_all B (page_window query page size) = Returns rows →
  0 ≤ total < 2 ^ 53 → 1 ≤ page → 1 ≤ size < 2 ^ 1075 →
  ∃ pages,
    (get_paginated_data B query S s).1 =
      of_answer
        (dump B S
           {| items := rows;
              total_count := total;
              total_page := pages;
              current_page := page;
              has_next := page <? pages;
              has_prev := 1 <? page |}) ∧
    ((page <? pages) = true ↔ page * size < total) ∧
    ((1 <? page) = true ↔ 1 < page) ∧
    (pages < page → total ≤ (page - 1) * size).
Proof.
  intros Hpage Hsize Hschema Hcount Hrows Htotal Hp Hs.
  destruct (int_true_div_ceil total size Htotal Hs) as [f [Hdiv Hceil]].
  exists (ceil f).
  rewrite (get_paginated_data_run B query S s page size).
  - rewrite Hschema, Hcount, Hdiv, Hrows. split; [done |].
    rewrite !Z.ltb_lt. repeat split; nia.
  - unfold dict_get, py_or. rewrite Hpage. simpl.
    by destruct (Z.eqb_spec page 0) as [? | _]; [lia |].
  - unfold dict_get, py_or. rewrite Hsize. simpl.
    by destruct (Z.eqb_spec size 0) as [? | _]; [lia |].
Qed.
End PaginationMore.

(** X13: what [get_page_args] returns. The returned dictionary has the
    keys [page] and [size] and no other, both with truthy values (a
    falsy [page] has become 1, a falsy [size] 10); it is a fixed point:
    handed to [get_page_args] again it is returned unchanged, and is
    left empty. *)
Theorem get_page_args_result (s : state) (returned : gmap string pyval) :
  (get_page_args s).1 = Ok returned →
  (∃ page size,
     returned = <["page" := page]> (<["size" := size]> ∅) ∧
     truthy page = true ∧ truthy size = true) ∧
  (∀ key, is_Some (returned !! key) ↔ key = "page" ∨ key = "size") ∧
  get_page_args (with_mapping returned s) = (Ok returned, with_mapping ∅ s).
Proof.
  rewrite get_page_args_run.
  destruct (mapping s !! "page") as [page |]; [| done].
  destruct (mapping s !! "size") as [size |]; [| done].
  simpl. intros [= <-].
  assert (truthy (py_or page (PInt 1)) = true) as Hp by by apply py_or_truthy.
  assert (truthy (py_or size (PInt 10)) = true) as Hs by by apply py_or_truthy.
  split; [by eexists _, _ |]. split.
  - intros key.
    destruct (decide (key = "page")) as [-> | Hpage].
    { rewrite lookup_insert_eq. split; [by left | by eexists]. }
    rewrite lookup_insert_ne by done.
    destruct (decide (key = "size")) as [-> | Hsize].
    { rewrite lookup_insert_eq. split; [by right | by eexists]. }
    rewrite lookup_insert_ne by done. rewrite lookup_empty.
    split; [by intros [? ?] | by intros [? | ?]].
  - rewrite get_page_args_run. unfold with_mapping. simpl.
    rewrite lookup_insert_eq. rewrite lookup_insert_ne by done. rewrite lookup_insert_eq.
    rewrite delete_page_args. unfold py_or at 1 3. by rewrite Hp, Hs.
Qed.

(** X14: when [get_page_args] fails. It raises exactly when [page] or
    [size] is missing. Without [page] it raises [KeyError('page')] and
    the dictionary is untouched, also its [size]. With [page] but
    without [size] it raises [KeyError('size')] after [page] has been
    removed: the failed call has changed the caller's dictionary. *)
Theorem get_page_args_missing_key (s : state) :
  (raises (get_page_args s).1 = true ↔
   mapping s !! "page" = None ∨ mapping s !! "size" = None) ∧
  (mapping s !! "page" = None → get_page_args s = (Raise (KeyError "page"), s)) ∧
  (is_Some (mapping s !! "page") → mapping s !! "size" = None →
   get_page_args s = (Raise (KeyError "size"), with_mapping (delete "page" (mapping s)) s) ∧
   mapping (get_page_args s).2 !! "page" = None ∧
   mapping (get_page_args s).2 ≠ mapping s).
Proof.
  rewrite get_page_args_run.
  destruct (mapping s !! "page") as [page |] eqn:Hpage;
    [destruct (mapping s !! "size") as [size |] eqn:Hsize |]; simpl.
  - split; [split; [done | by intros [? | ?]] |]. split; [done |]. by intros _ ?.
  - split; [split; [by right | done] |]. split; [done |].
    intros _ _. split; [done |].
    assert (delete "page" (mapping s) !! "page" = None) as Hgone by apply lookup_delete_eq.
    split; [done |]. intros Heq. rewrite Heq, Hpage in Hgone. done.
  - split; [split; [by left | done] |]. split; [done |]. by intros [? ?].
Qed.

Section PageArgsThenData.
Context (B : Backend).

(** X15: [get_page_args] and [get_paginated_data] agree on the defaults.
    Paginating with the dictionary that [get_page_args] returned has the
    outcome, and sends the requests, of paginating with the dictionary it
    was extracted from. *)
Theorem get_page_args_then_get_paginated_data
    (query : Query) (S : Schema B) (s : state) (returned : gmap string pyval) :
  (get_page_args s).1 = Ok returned →
  (get_paginated_data B query S (with_mapping returned s)).1 =
    (get_paginated_data B query S s).1 ∧
  executed (get_paginated_data B query S (with_mapping returned s)).2 =
    executed (get_paginated_data B query S s).2.
Proof.
  rewrite get_page_args_run.
  destruct (mapping s !! "page") as [page |] eqn:Hpage; [| done].
  destruct (mapping s !! "size") as [size |] eqn:Hsize; [| done].
  simpl. intros [= <-].
  apply get_paginated_data_depends; unfold with_mapping; simpl; [| | done].
  - destruct (dict_get_page_args (py_or page (PInt 1)) (py_or size (PInt 10))) as [-> _].
    rewrite py_or_idempotent. unfold dict_get. by rewrite Hpage.
  - destruct (dict_get_page_args (py_or page (PInt 1)) (py_or size (PInt 10))) as [_ ->].
    rewrite py_or_idempotent. unfold dict_get. by rewrite Hsize.
Qed.
End PageArgsThenData.

(** *** Evaluation of the further properties on sample data *)

Example unknown_filter_type_unnoticed :
  get_filtered_query plain_repr column_operands "User" {["name" := PStr ""]}
    [("name", CfgDict by_regex)] [] false =
  Ok (Distinct (Filter users []) (Attr "User" "id")).
Proof. reflexivity. Qed.

Example unknown_filter_type_in_second_alternative :
  get_filtered_query plain_repr column_operands "User" {["q" := PStr "bob"]}
    [("q", CfgList [by_name; by_regex])] [] false =
  Raise (ValueError "Invalid filter type: regex").
Proof. reflexivity. Qed.

Example tuple_of_alternatives_is_skipped :
  get_filtered_query plain_repr column_operands "User"
    {["q" := PStr "bob"; "name" := PStr "al"]}
    [("q", CfgOther); ("name", CfgDict by_name)] [] false =
  Ok (Distinct (Filter users [ILike (Attr "User" "name") "%al%"]) (Attr "User" "id")).
Proof. reflexivity. Qed.

Lemma get_filtered_query_dict_entry_witness :
  get_filtered_query plain_repr column_operands "User" {["tag" := PStr "vip"]}
    ([] ++ ("tag", CfgDict by_tag) :: []) ["Tag"] true =
    Ok (Distinct
          (Filter (Join users "Tag")
                  ([] ++ Lifted "User.tags.any"
                           (Compare OpEq (Attr "Tag" "label") (PStr "vip"))
                      :: [] ++ [Compare OpEq (Attr "User" "deleted") (PBool false)]))
          (Attr "User" "id")).
Proof.
  refine (get_filtered_query_dict_entry plain_repr column_operands "User"
            {["tag" := PStr "vip"]} [] "tag" by_tag [] ["Tag"] true (PStr "vip")
            (Compare OpEq (Attr "Tag" "label") (PStr "vip")) [] [] _ _ _ _ _).
  - reflexivity.
  - reflexivity.
  - reflexivity.
  - reflexivity.
  - reflexivity.
Defined.

Lemma get_filtered_query_reads_configured_keys_witness :
  get_filtered_query plain_repr column_operands "User"
    {["name" := PStr "bob"; "page" := PInt 2; "size" := PInt 20]} name_only [] false =
  get_filtered_query plain_repr column_operands "User" {["name" := PStr "bob"]}
    name_only [] false.
Proof.
  refine (get_filtered_query_reads_configured_keys plain_repr column_operands "User"
            {["name" := PStr "bob"; "page" := PInt 2; "size" := PInt 20]}
            {["name" := PStr "bob"]} name_only [] false _).
  intros key value Hin. apply list_elem_of_singleton in Hin as [= -> _]. reflexivity.
Defined.

Lemma get_filtered_query_falsy_is_absent_witness :
  get_filtered_query plain_repr column_operands "User" (<["name" := PInt 0]> ∅)
    name_only [] false =
  get_filtered_query plain_repr column_operands "User" (delete "name" ∅)
    name_only [] false.
Proof.
  refine (get_filtered_query_falsy_is_absent plain_repr column_operands "User" ∅ "name"
            (PInt 0) name_only [] false _).
  reflexivity.
Defined.

Lemma get_filtered_query_counts_witness :
  ∃ cs,
    Distinct
      (Filter users
         [Or_ [ILike (Attr "User" "name") "%bob%";
               Lifted "User.tags.any" (Compare OpEq (Attr "Tag" "label") (PStr "bob"))];
          Compare OpEq (Attr "User" "deleted") (PBool false)])
      (Attr "User" "id") =
    Distinct (Filter (fold_left Join [] (ModelQuery "User")) cs) (Attr "User" "id") ∧
    length cs =
      (length (List.filter (contributes {["q" := PStr "bob"]})
                 [("name", CfgDict by_name); ("q", CfgList [by_name; by_tag]);
                  ("x", CfgOther)]) +
       (if true then 1 else 0))%nat ∧
    (length cs ≤
     length [("name", CfgDict by_name); ("q", CfgList [by_name; by_tag]); ("x", CfgOther)]
     + 1)%nat.
Proof.
  refine (get_filtered_query_counts plain_repr column_operands "User"
            {["q" := PStr "bob"]}
            [("name", CfgDict by_name); ("q", CfgList [by_name; by_tag]); ("x", CfgOther)]
            [] true _ _).
  reflexivity.
Defined.

Lemma get_paginated_data_has_next_witness :
  ∃ pages,
    (get_paginated_data (fixed_backend 25 [11; 12; 13]) users ()
       (called_with {["page" := PInt 2; "size" := PInt 10]})).1 =
      Ok {| items := [11; 12; 13]; total_count := 25; total_page := pages;
            current_page := 2; has_next := 2 <? pages; has_prev := 1 <? 2 |} ∧
    ((2 <? pages) = true ↔ 2 * 10 < 25) ∧
    ((1 <? 2) = true ↔ 1 < 2) ∧
    (pages < 2 → 25 ≤ (2 - 1) * 10).
Proof.
  refine (get_paginated_data_has_next (fixed_backend 25 [11; 12; 13]) users ()
            (called_with {["page" := PInt 2; "size" := PInt 10]}) 2 10 25 [11; 12; 13]
            _ _ _ _ _ _ _ _).
  - reflexivity.
  - reflexivity.
  - reflexivity.
  - reflexivity.
  - reflexivity.
  - lia.
  - lia.
  - lia.
Defined.

Lemma get_page_args_result_witness :
  (∃ page size,
     ({["page" := PInt 1; "size" := PInt 20]} : gmap string pyval) =
       <["page" := page]> (<["size" := size]> ∅) ∧
     truthy page = true ∧ truthy size = true) ∧
  (∀ key, is_Some (({["page" := PInt 1; "size" := PInt 20]} : gmap string pyval) !! key) ↔
          key = "page" ∨ key = "size") ∧
  get_page_args
    (with_mapping {["page" := PInt 1; "size" := PInt 20]}
       (called_with {["page" := PInt 0; "size" := PInt 20; "q" := PStr "x"]})) =
    (Ok {["page" := PInt 1; "size" := PInt 20]},
     with_mapping ∅ (called_with {["page" := PInt 0; "size" := PInt 20; "q" := PStr "x"]})).
Proof.
  refine (get_page_args_result
            (called_with {["page" := PInt 0; "size" := PInt 20; "q" := PStr "x"]})
            {["page" := PInt 1; "size" := PInt 20]} _).
  reflexivity.
Defined.

Lemma get_page_args_then_get_paginated_data_witness :
  (get_paginated_data (fixed_backend 25 [11; 12; 13]) users ()
     (with_mapping {["page" := PInt 2; "size" := PInt 10]}
        (called_with {["page" := PInt 2; "size" := PInt 0]}))).1 =
    (get_paginated_data (fixed_backend 25 [11; 12; 13]) users ()
       (called_with {["page" := PInt 2; "size" := PInt 0]})).1 ∧
  executed
    (get_paginated_data (fixed_backend 25 [11; 12; 13]) users ()
       (with_mapping {["page" := PInt 2; "size" := PInt 10]}
          (called_with {["page" := PInt 2; "size" := PInt 0]}))).2 =
    executed
      (get_paginated_data (fixed_backend 25 [11; 12; 13]) users ()
         (called_with {["page" := PInt 2; "size" := PInt 0]})).2.
Proof.
  refine (get_page_args_then_get_paginated_data (fixed_backend 25 [11; 12; 13]) users ()
            (called_with {["page" := PInt 2; "size" := PInt 0]})
            {["page" := PInt 2; "size" := PInt 10]} _).
  reflexivity.
Defined.
